(** * Deadline Guardian: the urgency classifier, the deadline, the reminder
    episode and the hourly trigger of the Safety Course countdown widget.

    The development embeds [App.tsx] (getDeadline, calculateUrgency,
    triggerReminder, the initial load, the hourly timer effect and the click
    handlers), [services/geminiService.ts] (getGenAI, generateReminderText,
    generateSpeech, generateSafetyImage) and the arithmetic of
    [components/Countdown.tsx] (calculateTimeLeft).

    Modelling conventions.
    - A JavaScript time value is an integer count of milliseconds; it is a
      [Z].  Quotients of numbers are exact rationals ([Q]); for operands
      below 2^53, the range of every time value, [Math.ceil] of the double
      quotient by 86400000 or 3600000 equals the ceiling of the exact one.
      [TimeClip] is left out: time values stay within the range of Date.
    - The calendar follows the abstract operations of the ECMAScript
      specification (Day, DayFromYear, YearFromTime, MonthFromTime,
      DateFromTime, MakeDay, MakeTime, MakeDate, LocalTime, UTC).  The time
      zone is any function [LocalTZA] from a time value, read as UTC or as
      local time, to the offset in force there; what a property needs of
      the zone is a hypothesis of its theorem.
    - A JavaScript string is its list of UTF-16 code units.
    - Effectful code is a function from the world to an outcome, a new world
      and the events emitted, in order.  An [async] function is run to
      completion in one piece: a rejected promise is the outcome [Thrown].
    - [new AudioContext()] succeeds or throws as the browser decides. *)

From Stdlib Require Import ZArith Lia QArith Qround List Bool String Ascii.
Import ListNotations.
Open Scope Z_scope.

(** ** JavaScript strings *)

Module JsString.

Definition jsstring := list Z.

Definition bytes_of (s : string) : list Z :=
  map (fun a => Z.of_N (N_of_ascii a)) (list_ascii_of_string s).

(** Code points of a UTF-8 byte sequence (source files are UTF-8). *)
Fixpoint utf8_decode (bs : list Z) : list Z :=
  match bs with
  | [] => []
  | b1 :: r1 =>
    if b1 <? 128 then b1 :: utf8_decode r1
    else
      match r1 with
      | [] => []
      | b2 :: r2 =>
        if b1 <? 224 then ((b1 - 192) * 64 + (b2 - 128)) :: utf8_decode r2
        else
          match r2 with
          | [] => []
          | b3 :: r3 =>
            if b1 <? 240
            then ((b1 - 224) * 4096 + (b2 - 128) * 64 + (b3 - 128))
                   :: utf8_decode r3
            else
              match r3 with
              | [] => []
              | b4 :: r4 =>
                ((b1 - 240) * 262144 + (b2 - 128) * 4096
                 + (b3 - 128) * 64 + (b4 - 128)) :: utf8_decode r4
              end
          end
      end
  end.

Definition utf16_units (cp : Z) : list Z :=
  if cp <? 65536 then [cp]
  else [55296 + (cp - 65536) / 1024; 56320 + (cp - 65536) mod 1024].

(** The value of a string literal of the source. *)
Definition lit (s : string) : jsstring :=
  flat_map utf16_units (utf8_decode (bytes_of s)).

(** WhiteSpace and LineTerminator code units, as String.prototype.trim
    strips them. *)
Definition is_white (c : Z) : bool :=
  ((9 <=? c) && (c <=? 13)) || (c =? 32) || (c =? 160) || (c =? 5760)
  || ((8192 <=? c) && (c <=? 8202)) || (c =? 8232) || (c =? 8233)
  || (c =? 8239) || (c =? 8287) || (c =? 12288) || (c =? 65279).

Fixpoint trimStart (s : jsstring) : jsstring :=
  match s with
  | [] => []
  | c :: r => if is_white c then trimStart r else s
  end.

Definition trimEnd (s : jsstring) : jsstring := rev (trimStart (rev s)).

Definition trim (s : jsstring) : jsstring := trimEnd (trimStart s).

(** Truthiness of a string: only the empty string is falsy. *)
Definition truthy (s : jsstring) : bool :=
  match s with [] => false | _ :: _ => true end.

(** [a || b] on strings where [a] may be undefined. *)
Definition or_else (a : option jsstring) (b : jsstring) : jsstring :=
  match a with
  | Some s => if truthy s then s else b
  | None => b
  end.

End JsString.
Import JsString.

(** ** Dates: the time arithmetic of ECMAScript *)

Module Date.

Definition msPerSecond : Z := 1000.
Definition msPerMinute : Z := 60000.
Definition msPerHour : Z := 3600000.
Definition msPerDay : Z := 86400000.

Definition Day (t : Z) : Z := t / msPerDay.
Definition TimeWithinDay (t : Z) : Z := t mod msPerDay.

Definition DaysInYear (y : Z) : Z :=
  if negb (y mod 4 =? 0) then 365
  else if negb (y mod 100 =? 0) then 366
  else if negb (y mod 400 =? 0) then 365
  else 366.

Definition DayFromYear (y : Z) : Z :=
  365 * (y - 1970) + (y - 1969) / 4 - (y - 1901) / 100 + (y - 1601) / 400.

Definition TimeFromYear (y : Z) : Z := msPerDay * DayFromYear y.

(** The year of a day number: the mean-year estimate, corrected by at most
    one; [YearFromDay_spec] shows it is the largest y with
    DayFromYear y <= d. *)
Definition YearFromDay (d : Z) : Z :=
  let y := 1970 + (d * 400) / 146097 in
  if d <? DayFromYear y then y - 1
  else if DayFromYear (y + 1) <=? d then y + 1
  else y.

Definition YearFromTime (t : Z) : Z := YearFromDay (Day t).

Definition InLeapYear (t : Z) : Z :=
  if DaysInYear (YearFromTime t) =? 366 then 1 else 0.

Definition DayWithinYear (t : Z) : Z :=
  Day t - DayFromYear (YearFromTime t).

Definition MonthFromTime (t : Z) : Z :=
  let d := DayWithinYear t in
  let l := InLeapYear t in
  if d <? 31 then 0
  else if d <? 59 + l then 1
  else if d <? 90 + l then 2
  else if d <? 120 + l then 3
  else if d <? 151 + l then 4
  else if d <? 181 + l then 5
  else if d <? 212 + l then 6
  else if d <? 243 + l then 7
  else if d <? 273 + l then 8
  else if d <? 304 + l then 9
  else if d <? 334 + l then 10
  else 11.

Definition DateFromTime (t : Z) : Z :=
  let d := DayWithinYear t in
  let l := InLeapYear t in
  match MonthFromTime t with
  | 0 => d + 1
  | 1 => d - 30
  | 2 => d - 58 - l
  | 3 => d - 89 - l
  | 4 => d - 119 - l
  | 5 => d - 150 - l
  | 6 => d - 180 - l
  | 7 => d - 211 - l
  | 8 => d - 242 - l
  | 9 => d - 272 - l
  | 10 => d - 303 - l
  | _ => d - 333 - l
  end.

Definition HourFromTime (t : Z) : Z := (t / msPerHour) mod 24.
Definition MinFromTime (t : Z) : Z := (t / msPerMinute) mod 60.
Definition SecFromTime (t : Z) : Z := (t / msPerSecond) mod 60.
Definition msFromTime (t : Z) : Z := t mod msPerSecond.

Definition MakeTime (hour min sec ms : Z) : Z :=
  hour * msPerHour + min * msPerMinute + sec * msPerSecond + ms.

(** Day number of the first day of month [mn] (0..11) in a year with
    [l] leap days. *)
Definition monthStart (mn l : Z) : Z :=
  match mn with
  | 0 => 0
  | 1 => 31
  | 2 => 59 + l
  | 3 => 90 + l
  | 4 => 120 + l
  | 5 => 151 + l
  | 6 => 181 + l
  | 7 => 212 + l
  | 8 => 243 + l
  | 9 => 273 + l
  | 10 => 304 + l
  | _ => 334 + l
  end.

Definition MakeDay (year month date : Z) : Z :=
  let ym := year + month / 12 in
  let mn := month mod 12 in
  let l := if DaysInYear ym =? 366 then 1 else 0 in
  DayFromYear ym + monthStart mn l + date - 1.

Definition MakeDate (day time : Z) : Z := day * msPerDay + time.

(** Years 0..99 given to the Date constructor mean 1900..1999. *)
Definition MakeFullYear (year : Z) : Z :=
  if (0 <=? year) && (year <=? 99) then 1900 + year else year.

Section Local.

(** [LocalTZA t true] is the offset in force at the UTC time value [t],
    [LocalTZA t false] the offset by which the local time value [t] is
    read. *)
Variable LocalTZA : Z -> bool -> Z.

Definition LocalTime (t : Z) : Z := t + LocalTZA t true.
Definition UTC (t : Z) : Z := t - LocalTZA t false.

(** [new Date(year, month, date, hours, minutes, seconds)] *)
Definition construct (year month date hours minutes seconds : Z) : Z :=
  UTC (MakeDate (MakeDay (MakeFullYear year) month date)
                (MakeTime hours minutes seconds 0)).

Definition getFullYear (t : Z) : Z := YearFromTime (LocalTime t).
Definition getMonth (t : Z) : Z := MonthFromTime (LocalTime t).
Definition getDate (t : Z) : Z := DateFromTime (LocalTime t).
Definition getHours (t : Z) : Z := HourFromTime (LocalTime t).
Definition getMinutes (t : Z) : Z := MinFromTime (LocalTime t).
Definition getSeconds (t : Z) : Z := SecFromTime (LocalTime t).
Definition getMilliseconds (t : Z) : Z := msFromTime (LocalTime t).

(** [d.setFullYear(year)]: the new time value of [d]. *)
Definition setFullYear (t year : Z) : Z :=
  let lt := LocalTime t in
  UTC (MakeDate (MakeDay year (MonthFromTime lt) (DateFromTime lt))
                (TimeWithinDay lt)).

End Local.

End Date.

(** ** types.ts *)

Inductive UrgencyLevel := LOW | MEDIUM | HIGH | CRITICAL.

Record SafetyImageResponse := {
  imageUrl : option jsstring;
  description : jsstring
}.

(** ** The world the application runs in *)

Record AudioBuffer := { samples : list Z }.

Record GoogleGenAI := { apiKey : jsstring }.

(** The request sent for a reminder text: the tier selects the template,
    and one figure is spliced into it (hours for CRITICAL, days
    otherwise). *)
Record TextPrompt := {
  prompt_urgency : UrgencyLevel;
  prompt_figure : Z
}.

(** The two image prompts: the red control room and the bright city. *)
Inductive ImagePrompt := ControlRoom | BrightCity.

Inductive Reply (A : Type) :=
| Rejects
| Responds (a : A).
Arguments Rejects {A}.
Arguments Responds {A} a.

(** What the outside answers while an action runs: the remote service to
    [ai.models.generateContent], per model; what the decoding step of
    [generateSpeech] (a fresh AudioContext and
    [decodeAudioData (decode data)] of [./utils]) makes of an audio payload
    ([None]: it throws); and whether the browser lets [new AudioContext]
    succeed in [initAudio], at the click, and in the playback block of
    [triggerReminder]. *)
Record Provider := {
  flash_text : TextPrompt -> Reply (option jsstring);
  flash_tts : jsstring -> Reply (option jsstring);
  flash_image : ImagePrompt -> Reply (list (option jsstring));
  decodeAudioData : jsstring -> option AudioBuffer;
  context_at_click : bool;
  context_at_playback : bool
}.

Inductive Error :=
| ApiKeyNotFound
| RequestFailed
| DecodeFailed
| AudioContextRefused.

Inductive Event :=
| Call_triggerReminder (manual : bool)
| ConsoleLog (msg : jsstring)
| ConsoleError (msg : jsstring)
| SetUrgency (l : UrgencyLevel)
| SetCurrentMessage (s : jsstring)
| SetShowPopup (b : bool)
| SetIsSoundEnabled (b : bool)
| SetIsImageLoading (b : bool)
| SetSafetyImageUrl (u : option jsstring)
| SetAudioContext
| TextRequest (p : TextPrompt)
| Call_generateSpeech (text : jsstring)
| SpeechRequest (text : jsstring)
| ImageRequest (p : ImagePrompt)
| AudioStart (buffer : AudioBuffer)
| UnhandledRejection (e : Error)
| UncaughtError (e : Error).

Record World := mkWorld {
  clock : Z;
  DEADLINE : Z;
  genAI : option GoogleGenAI;
  isSoundEnabled : bool;
  showPopup : bool;
  currentMessage : jsstring;
  safetyImageUrl : option jsstring;
  isImageLoading : bool;
  urgency : UrgencyLevel;
  audioContext : bool;
  lastHourCheckRef : Z
}.

Definition with_clock (t : Z) (w : World) : World :=
  mkWorld t (DEADLINE w) (genAI w) (isSoundEnabled w) (showPopup w)
          (currentMessage w) (safetyImageUrl w) (isImageLoading w)
          (urgency w) (audioContext w) (lastHourCheckRef w).

Definition with_genAI (g : option GoogleGenAI) (w : World) : World :=
  mkWorld (clock w) (DEADLINE w) g (isSoundEnabled w) (showPopup w)
          (currentMessage w) (safetyImageUrl w) (isImageLoading w)
          (urgency w) (audioContext w) (lastHourCheckRef w).

Definition with_isSoundEnabled (b : bool) (w : World) : World :=
  mkWorld (clock w) (DEADLINE w) (genAI w) b (showPopup w)
          (currentMessage w) (safetyImageUrl w) (isImageLoading w)
          (urgency w) (audioContext w) (lastHourCheckRef w).

Definition with_showPopup (b : bool) (w : World) : World :=
  mkWorld (clock w) (DEADLINE w) (genAI w) (isSoundEnabled w) b
          (currentMessage w) (safetyImageUrl w) (isImageLoading w)
          (urgency w) (audioContext w) (lastHourCheckRef w).

Definition with_currentMessage (s : jsstring) (w : World) : World :=
  mkWorld (clock w) (DEADLINE w) (genAI w) (isSoundEnabled w) (showPopup w)
          s (safetyImageUrl w) (isImageLoading w)
          (urgency w) (audioContext w) (lastHourCheckRef w).

Definition with_safetyImageUrl (u : option jsstring) (w : World) : World :=
  mkWorld (clock w) (DEADLINE w) (genAI w) (isSoundEnabled w) (showPopup w)
          (currentMessage w) u (isImageLoading w)
          (urgency w) (audioContext w) (lastHourCheckRef w).

Definition with_isImageLoading (b : bool) (w : World) : World :=
  mkWorld (clock w) (DEADLINE w) (genAI w) (isSoundEnabled w) (showPopup w)
          (currentMessage w) (safetyImageUrl w) b
          (urgency w) (audioContext w) (lastHourCheckRef w).

Definition with_urgency (l : UrgencyLevel) (w : World) : World :=
  mkWorld (clock w) (DEADLINE w) (genAI w) (isSoundEnabled w) (showPopup w)
          (currentMessage w) (safetyImageUrl w) (isImageLoading w)
          l (audioContext w) (lastHourCheckRef w).

Definition with_audioContext (b : bool) (w : World) : World :=
  mkWorld (clock w) (DEADLINE w) (genAI w) (isSoundEnabled w) (showPopup w)
          (currentMessage w) (safetyImageUrl w) (isImageLoading w)
          (urgency w) b (lastHourCheckRef w).

Definition with_lastHourCheckRef (h : Z) (w : World) : World :=
  mkWorld (clock w) (DEADLINE w) (genAI w) (isSoundEnabled w) (showPopup w)
          (currentMessage w) (safetyImageUrl w) (isImageLoading w)
          (urgency w) (audioContext w) h.

(** ** Computations: state, exceptions and a log of events *)

Inductive Outcome (A : Type) :=
| Returned (a : A)
| Thrown (e : Error).
Arguments Returned {A} a.
Arguments Thrown {A} e.

Record Run (A : Type) := mkRun {
  outcome : Outcome A;
  final : World;
  emitted : list Event
}.
Arguments mkRun {A}.
Arguments outcome {A}.
Arguments final {A}.
Arguments emitted {A}.

Definition M (A : Type) : Type := World -> Run A.

Definition ret {A} (a : A) : M A := fun w => mkRun (Returned a) w [].

Definition throw {A} (e : Error) : M A := fun w => mkRun (Thrown e) w [].

Definition bind {A B} (m : M A) (k : A -> M B) : M B :=
  fun w =>
    match m w with
    | mkRun (Returned a) w1 e1 =>
      match k a w1 with
      | mkRun o w2 e2 => mkRun o w2 (e1 ++ e2)
      end
    | mkRun (Thrown e) w1 e1 => mkRun (Thrown e) w1 e1
    end.

(** [try { m } catch (error) { h }] *)
Definition try_catch {A} (m : M A) (h : Error -> M A) : M A :=
  fun w =>
    match m w with
    | mkRun (Returned a) w1 e1 => mkRun (Returned a) w1 e1
    | mkRun (Thrown e) w1 e1 =>
      match h e w1 with
      | mkRun o w2 e2 => mkRun o w2 (e1 ++ e2)
      end
    end.

(** A promise nobody awaits: the caller goes on, a rejection is left
    unhandled. *)
Definition detached (m : M unit) : M unit :=
  fun w =>
    match m w with
    | mkRun (Returned _) w1 e1 => mkRun (Returned tt) w1 e1
    | mkRun (Thrown e) w1 e1 =>
      mkRun (Returned tt) w1 (e1 ++ [UnhandledRejection e])
    end.

(** An event handler: what it throws is reported and the page goes on. *)
Definition handler (m : M unit) : M unit :=
  fun w =>
    match m w with
    | mkRun (Returned _) w1 e1 => mkRun (Returned tt) w1 e1
    | mkRun (Thrown e) w1 e1 =>
      mkRun (Returned tt) w1 (e1 ++ [UncaughtError e])
    end.

Definition emit (ev : Event) : M unit := fun w => mkRun (Returned tt) w [ev].

Definition read {A} (f : World -> A) : M A := fun w => mkRun (Returned (f w)) w [].

Definition update (f : World -> World) : M unit :=
  fun w => mkRun (Returned tt) (f w) [].

Declare Scope js_scope.
Delimit Scope js_scope with js.
Notation "x <- m ;; k" := (bind m (fun x => k))
  (at level 61, m at next level, right associativity) : js_scope.
Notation "m ;; k" := (bind m (fun _ => k))
  (at level 61, right associativity) : js_scope.
Open Scope js_scope.

(** React state setters and the console. *)
Definition setUrgency (l : UrgencyLevel) : M unit :=
  update (with_urgency l) ;; emit (SetUrgency l).
Definition setCurrentMessage (s : jsstring) : M unit :=
  update (with_currentMessage s) ;; emit (SetCurrentMessage s).
Definition setShowPopup (b : bool) : M unit :=
  update (with_showPopup b) ;; emit (SetShowPopup b).
Definition setIsSoundEnabled (b : bool) : M unit :=
  update (with_isSoundEnabled b) ;; emit (SetIsSoundEnabled b).
Definition setIsImageLoading (b : bool) : M unit :=
  update (with_isImageLoading b) ;; emit (SetIsImageLoading b).
Definition setSafetyImageUrl (u : option jsstring) : M unit :=
  update (with_safetyImageUrl u) ;; emit (SetSafetyImageUrl u).
Definition setAudioContext : M unit :=
  update (with_audioContext true) ;; emit SetAudioContext.
Definition console_log (msg : string) : M unit := emit (ConsoleLog (lit msg)).
Definition console_error (msg : string) : M unit :=
  emit (ConsoleError (lit msg)).

(** [new Date()]: the reading of the clock. *)
Definition new_Date : M Z := read clock.

Section App.

(** The offset of the local time zone and [process.env.API_KEY]. *)
Variable LocalTZA : Z -> bool -> Z.
Variable API_KEY : option jsstring.

(** ** services/geminiService.ts *)

Definition getGenAI : M GoogleGenAI :=
  g <- read genAI ;;
  match g with
  | Some ai => ret ai
  | None =>
    match API_KEY with
    | Some key =>
      if truthy key then
        update (with_genAI (Some {| apiKey := key |})) ;;
        ret {| apiKey := key |}
      else
        console_error "API_KEY is missing from environment variables." ;;
        throw ApiKeyNotFound
    | None =>
      console_error "API_KEY is missing from environment variables." ;;
      throw ApiKeyNotFound
    end
  end.

(** [await ai.models.generateContent(...)], one per model. *)
Definition generateContent_text (P : Provider) (p : TextPrompt)
  : M (option jsstring) :=
  emit (TextRequest p) ;;
  match flash_text P p with
  | Rejects => throw RequestFailed
  | Responds text => ret text
  end.

Definition generateContent_tts (P : Provider) (text : jsstring)
  : M (option jsstring) :=
  emit (SpeechRequest text) ;;
  match flash_tts P text with
  | Rejects => throw RequestFailed
  | Responds data => ret data
  end.

Definition generateContent_image (P : Provider) (p : ImagePrompt)
  : M (list (option jsstring)) :=
  emit (ImageRequest p) ;;
  match flash_image P p with
  | Rejects => throw RequestFailed
  | Responds parts => ret parts
  end.

Definition text_prompt (urgency : UrgencyLevel) (daysLeft hoursLeft : Z)
  : TextPrompt :=
  match urgency with
  | CRITICAL => {| prompt_urgency := CRITICAL; prompt_figure := hoursLeft |}
  | HIGH => {| prompt_urgency := HIGH; prompt_figure := daysLeft |}
  | MEDIUM => {| prompt_urgency := MEDIUM; prompt_figure := daysLeft |}
  | LOW => {| prompt_urgency := LOW; prompt_figure := daysLeft |}
  end.

Definition generateReminderText (P : Provider) (urgency : UrgencyLevel)
           (daysLeft hoursLeft : Z) : M jsstring :=
  ai <- getGenAI ;;
  let prompt := text_prompt urgency daysLeft hoursLeft in
  try_catch
    (text <- generateContent_text P prompt ;;
     ret (or_else (option_map trim text) (lit "请立即完成安全课程！")))
    (fun error =>
       console_error "Error generating text:" ;;
       ret (lit "请注意：安全课程需要在11月30日前完成。")).

Definition generateSpeech (P : Provider) (text : jsstring)
  : M (option AudioBuffer) :=
  emit (Call_generateSpeech text) ;;
  ai <- getGenAI ;;
  try_catch
    (base64Audio <- generateContent_tts P text ;;
     match base64Audio with
     | None => ret None
     | Some data =>
       if truthy data then
         match decodeAudioData P data with
         | Some audioBuffer => ret (Some audioBuffer)
         | None => throw DecodeFailed
         end
       else ret None
     end)
    (fun error =>
       console_error "Error generating speech:" ;;
       ret None).

Definition image_prompt (urgency : UrgencyLevel) : ImagePrompt :=
  match urgency with
  | CRITICAL | HIGH => ControlRoom
  | _ => BrightCity
  end.

(** The first part that carries inline data. *)
Fixpoint first_inline (parts : list (option jsstring)) : option jsstring :=
  match parts with
  | [] => None
  | Some data :: _ => Some data
  | None :: rest => first_inline rest
  end.

Definition generateSafetyImage (P : Provider) (urgency : UrgencyLevel)
  : M SafetyImageResponse :=
  ai <- getGenAI ;;
  try_catch
    (parts <- generateContent_image P (image_prompt urgency) ;;
     match first_inline parts with
     | Some data =>
       ret {| imageUrl := Some (lit "data:image/png;base64," ++ data);
              description := lit "Generated Anime Style Safety Image" |}
     | None =>
       ret {| imageUrl := None; description := lit "Failed to generate" |}
     end)
    (fun error =>
       console_error "Error generating image:" ;;
       ret {| imageUrl := None; description := lit "Error" |}).

(** ** App.tsx *)

(** [getDeadline], as a function of the clock reading [now]. *)
Definition getDeadline (now : Z) : Z :=
  let year := Date.getFullYear LocalTZA now in
  let deadline := Date.construct LocalTZA year 10 30 23 59 59 in
  if now >? deadline
  then Date.setFullYear LocalTZA deadline (year + 1)
  else deadline.

(** The state right after the modules are loaded and [App] is first
    rendered, the clock reading [now]. *)
Definition load (now : Z) : World :=
  {| clock := now;
     DEADLINE := getDeadline now;
     genAI := None;
     isSoundEnabled := true;
     showPopup := false;
     currentMessage := lit "Initializing Safety Protocols...";
     safetyImageUrl := None;
     isImageLoading := false;
     urgency := LOW;
     audioContext := false;
     lastHourCheckRef := Date.getHours LocalTZA now |}.

(** [new AudioContext(...)] where the browser grants it or not. *)
Definition new_AudioContext (granted : bool) : M unit :=
  if granted then ret tt else throw AudioContextRefused.

Definition initAudio (P : Provider) : M unit :=
  ctx <- read audioContext ;;
  if negb ctx then
    new_AudioContext (context_at_click P) ;;
    setAudioContext
  else ret tt.

Record Urgency := {
  level : UrgencyLevel;
  diffDays : Z;
  diffHours : Z
}.

Definition Math_ceil (x : Q) : Z := Qceiling x.

(** The arithmetic of [calculateUrgency], on the two time values it
    reads. *)
Definition classify (now deadline : Z) : Urgency :=
  let diffTime := Z.abs (deadline - now) in
  let diffDays :=
    Math_ceil (inject_Z diffTime / inject_Z (1000 * 60 * 60 * 24)) in
  let diffHours :=
    Math_ceil (inject_Z diffTime / inject_Z (1000 * 60 * 60)) in
  let level :=
    if diffDays <=? 2 then CRITICAL
    else if diffDays <=? 7 then HIGH
    else if diffDays <=? 14 then MEDIUM
    else LOW in
  {| level := level; diffDays := diffDays; diffHours := diffHours |}.

Definition calculateUrgency : M Urgency :=
  now <- new_Date ;;
  deadline <- read DEADLINE ;;
  let u := classify now deadline in
  setUrgency (level u) ;;
  ret u.

(** The playback block: a fresh AudioContext, then [source.start(0)]. *)
Definition play (P : Provider) (buffer : AudioBuffer) : M unit :=
  new_AudioContext (context_at_playback P) ;;
  emit (AudioStart buffer).

(** The body of [triggerReminder], for the value of [isSoundEnabled] that
    the callback closed over. *)
Definition triggerReminder_of (isSoundEnabled : bool) (P : Provider)
           (manual : bool) : M unit :=
  emit (Call_triggerReminder manual) ;;
  (if negb manual then console_log "Auto-triggering reminder..."
   else ret tt) ;;
  u <- calculateUrgency ;;
  text <- generateReminderText P (level u) (diffDays u) (diffHours u) ;;
  setCurrentMessage text ;;
  setShowPopup true ;;
  if isSoundEnabled then
    buffer <- generateSpeech P text ;;
    match buffer with
    | Some b => play P b
    | None => ret tt
    end
  else ret tt.

(** A call of [triggerReminder]: the timer effect and the button hold the
    callback of the latest render, which closed over the current
    [isSoundEnabled]. *)
Definition triggerReminder (P : Provider) (manual : bool) : M unit :=
  enabled <- read isSoundEnabled ;;
  triggerReminder_of enabled P manual.

(** The effect run once after the first render. *)
Definition initialDataLoad (P : Provider) : M unit :=
  u <- calculateUrgency ;;
  setIsImageLoading true ;;
  detached
    (res <- generateSafetyImage P (level u) ;;
     setSafetyImageUrl (imageUrl res) ;;
     setIsImageLoading false).

(** The callback of [setInterval(..., 60000)] and its period. *)
Definition checkInterval : Z := 60000.

Definition hourlyTimerCheck (P : Provider) : M unit :=
  now <- new_Date ;;
  let currentHour := Date.getHours LocalTZA now in
  last <- read lastHourCheckRef ;;
  if negb (currentHour =? last) then
    update (with_lastHourCheckRef currentHour) ;;
    detached (triggerReminder P false)
  else ret tt.

(** The bodies of the click handlers. *)
Definition toggleSound (P : Provider) : M unit :=
  initAudio P ;;
  b <- read isSoundEnabled ;;
  setIsSoundEnabled (negb b).

Definition testReminder (P : Provider) : M unit :=
  initAudio P ;;
  detached (triggerReminder P true).

Definition dismissPopup : M unit := setShowPopup false.

(** Everything that can happen after loading: the passing of time, the
    effects and the user's clicks.  Each carries the answers the outside
    gives while it runs. *)
Inductive Action :=
| ClockAdvance (t : Z)
| InitialDataLoad (P : Provider)
| TimerTick (P : Provider)
| ToggleSound (P : Provider)
| TestReminder (P : Provider)
| DismissPopup.

Definition perform (a : Action) : M unit :=
  match a with
  | ClockAdvance t => update (with_clock t)
  | InitialDataLoad P => initialDataLoad P
  | TimerTick P => hourlyTimerCheck P
  | ToggleSound P => handler (toggleSound P)
  | TestReminder P => handler (testReminder P)
  | DismissPopup => handler dismissPopup
  end.

Fixpoint perform_all (acts : list Action) : M unit :=
  match acts with
  | [] => ret tt
  | a :: rest => perform a ;; perform_all rest
  end.

End App.

(** ** components/Countdown.tsx *)

Module Countdown.

Record TimeLeft := {
  days : Z;
  hours : Z;
  minutes : Z;
  seconds : Z
}.

Definition Math_floor (x : Q) : Z := Qfloor x.

(** Rounding towards zero, as the remainder operator does. *)
Definition Math_trunc (x : Q) : Z :=
  if Qnum x <? 0 then Qceiling x else Qfloor x.

(** [x % y] on numbers. *)
Definition rem (x y : Q) : Q := x - y * inject_Z (Math_trunc (x / y)).

(** [calculateTimeLeft], for the clock reading [now]. *)
Definition calculateTimeLeft (targetDate now : Z) : TimeLeft :=
  let difference := targetDate - now in
  if difference <=? 0 then
    {| days := 0; hours := 0; minutes := 0; seconds := 0 |}
  else
    {| days :=
         Math_floor (inject_Z difference / inject_Z (1000 * 60 * 60 * 24));
       hours :=
         Math_floor
           (rem (inject_Z difference / inject_Z (1000 * 60 * 60))
                (inject_Z 24));
       minutes :=
         Math_floor
           (rem (inject_Z difference / inject_Z 1000 / inject_Z 60)
                (inject_Z 60));
       seconds :=
         Math_floor
           (rem (inject_Z difference / inject_Z 1000) (inject_Z 60)) |}.

End Countdown.

(** ** Vocabulary of the properties *)

(** Classes of events. *)
Definition is_episode (ev : Event) : bool :=
  match ev with
  | Call_triggerReminder _ => true
  | _ => false
  end.

Definition is_auto_episode (ev : Event) : bool :=
  match ev with
  | Call_triggerReminder false => true
  | _ => false
  end.

Definition is_audio (ev : Event) : bool :=
  match ev with
  | Call_generateSpeech _ => true
  | SpeechRequest _ => true
  | AudioStart _ => true
  | _ => false
  end.

Definition is_reveal (ev : Event) : bool :=
  match ev with
  | SetCurrentMessage _ => true
  | SetShowPopup true => true
  | _ => false
  end.

Definition is_request (ev : Event) : bool :=
  match ev with
  | TextRequest _ => true
  | SpeechRequest _ => true
  | ImageRequest _ => true
  | _ => false
  end.

Definition count_if (f : Event -> bool) (evs : list Event) : nat :=
  List.length (filter f evs).

(** A computation leaves a component of the world as it was. *)
Definition preserves {A B} (f : World -> B) (m : M A) : Prop :=
  forall w, f (final (m w)) = f w.

(** A computation emits no event of a class. *)
Definition silent {A} (f : Event -> bool) (m : M A) : Prop :=
  forall w, filter f (emitted (m w)) = [].

(** What [triggerReminder] does after the reveal, for the sound preference
    [en] it closed over. *)
Definition speak (key : option jsstring) (P : Provider) (en : bool)
           (text : jsstring) : M unit :=
  if en then
    buffer <- generateSpeech key P text ;;
    match buffer with
    | Some b => play P b
    | None => ret tt
    end
  else ret tt.

(** A text the service sent that trims to nothing, or no text at all. *)
Definition blank (text : option jsstring) : Prop :=
  match text with
  | Some s => trim s = []
  | None => True
  end.

(** The buffer [generateSpeech] makes of the answer to a speech request:
    the decoded payload, if the answer carries one that is not empty and
    decodes. *)
Definition spoken (P : Provider) (text : jsstring) : option AudioBuffer :=
  match flash_tts P text with
  | Responds (Some data) =>
    if truthy data then decodeAudioData P data else None
  | _ => None
  end.

Definition is_playback (ev : Event) : bool :=
  match ev with
  | AudioStart _ => true
  | _ => false
  end.

Definition is_unhandled (ev : Event) : bool :=
  match ev with
  | UnhandledRejection _ => true
  | _ => false
  end.

Definition is_refusal (e : Error) : bool :=
  match e with
  | AudioContextRefused => true
  | _ => false
  end.

(** An unhandled rejection that is not the refusal of an audio context. *)
Definition service_rejection (ev : Event) : bool :=
  match ev with
  | UnhandledRejection e => negb (is_refusal e)
  | _ => false
  end.

(** A computation throws nothing but the errors [ok]. *)
Definition throws_only {A} (ok : Error -> bool) (m : M A) : Prop :=
  forall w e, outcome (m w) = Thrown e -> ok e = true.

(** A computation never throws. *)
Definition returns {A} (m : M A) : Prop :=
  forall w, exists a, outcome (m w) = Returned a.

(** A computation keeps a property of the world. *)
Definition keeps {A} (I : World -> Prop) (m : M A) : Prop :=
  forall w, I w -> I (final (m w)).

(** The cached client, if there is one, was built from the configured
    key. *)
Definition client_of_key (key : option jsstring) (w : World) : Prop :=
  match genAI w with
  | Some ai => key = Some (apiKey ai) /\ truthy (apiKey ai) = true
  | None => True
  end.

(** The ticks of the timer at the given clock readings. *)
Definition ticks (P : Provider) (clocks : list Z) : list Action :=
  flat_map (fun t => [ClockAdvance t; TimerTick P]) clocks.

(** How often the hour changes along a list of hours, starting from
    [h0]. *)
Fixpoint hour_changes (h0 : Z) (hs : list Z) : nat :=
  match hs with
  | [] => 0%nat
  | h :: rest =>
    ((if (h =? h0)%Z then 0 else 1) + hour_changes h rest)%nat
  end.

Definition is_new_context (ev : Event) : bool :=
  match ev with
  | SetAudioContext => true
  | _ => false
  end.

Definition is_manual_episode (ev : Event) : bool :=
  match ev with
  | Call_triggerReminder true => true
  | _ => false
  end.

Definition is_urgency_write (ev : Event) : bool :=
  match ev with
  | SetUrgency _ => true
  | _ => false
  end.

(** First and last code unit of a string. *)
Definition starts_white (s : jsstring) : bool :=
  match s with
  | c :: _ => is_white c
  | [] => false
  end.

Definition ends_white (s : jsstring) : bool := starts_white (rev s).

(** [!process.env.API_KEY] *)
Definition key_missing (key : option jsstring) : bool :=
  match key with
  | Some k => negb (truthy k)
  | None => true
  end.

(** A call dies of the missing key: it throws, leaves the world as it was
    (the client is still not built) and sends no request. *)
Definition fatal {A} (m : M A) (w : World) : Prop :=
  outcome (m w) = Thrown ApiKeyNotFound
  /\ final (m w) = w
  /\ filter is_request (emitted (m w)) = [].

Definition is_uncaught (ev : Event) : bool :=
  match ev with
  | UncaughtError _ => true
  | _ => false
  end.

(** A time zone: the offsets [LocalTZA] of the Date arithmetic. *)
Definition Zone : Type := Z -> bool -> Z.

(** November 30, 23:59:59.000 of year [y] as a local time value, and the
    time value the Date constructor makes of it. *)
Definition localNov30 (y : Z) : Z :=
  Date.MakeDate (Date.MakeDay y 10 30) (Date.MakeTime 23 59 59 0).

Definition nov30 (tza : Zone) (y : Z) : Z := Date.UTC tza (localNov30 y).

(** The zone reads the local time [x] at one instant, [UTC x]: before it
    the local clock shows less than [x], after it more.  This fails only
    where a change of the clock skips or repeats [x]. *)
Definition settled (tza : Zone) (x : Z) : Prop :=
  Date.LocalTime tza (Date.UTC tza x) = x
  /\ (forall s, s < Date.UTC tza x -> Date.LocalTime tza s < x)
  /\ (forall s, Date.UTC tza x < s -> x < Date.LocalTime tza s).

(** No change of the clock touches the last second of a November. *)
Definition november_settled (tza : Zone) : Prop :=
  forall y, settled tza (localNov30 y).

(** The text request of the episode [r] was sent for the prompt [p] and
    the service rejected it; it was sent and answered with [t]. *)
Definition text_request_fails (P : Provider) (p : TextPrompt)
           (r : Run unit) : Prop :=
  In (TextRequest p) (emitted r) /\ flash_text P p = Rejects.

Definition text_request_answers (P : Provider) (p : TextPrompt)
           (r : Run unit) (t : option jsstring) : Prop :=
  In (TextRequest p) (emitted r) /\ flash_text P p = Responds t.

(** The local fields of a time value, as the getters of Date report them. *)
Record Fields := {
  f_year : Z;
  f_month : Z;
  f_date : Z;
  f_hours : Z;
  f_minutes : Z;
  f_seconds : Z;
  f_ms : Z
}.

Definition fields (tza : Zone) (t : Z) : Fields :=
  {| f_year := Date.getFullYear tza t;
     f_month := Date.getMonth tza t;
     f_date := Date.getDate tza t;
     f_hours := Date.getHours tza t;
     f_minutes := Date.getMinutes tza t;
     f_seconds := Date.getSeconds tza t;
     f_ms := Date.getMilliseconds tza t |}.

Definition Nov30_235959 (y : Z) : Fields :=
  {| f_year := y; f_month := 10; f_date := 30;
     f_hours := 23; f_minutes := 59; f_seconds := 59; f_ms := 0 |}.

(** [now] falls on day [dt] of month [mth] (0-based) of year [y]. *)
Definition on_day (tza : Zone) (y mth dt now : Z) : Prop :=
  Date.getFullYear tza now = y /\ Date.getMonth tza now = mth
  /\ Date.getDate tza now = dt.

(** The browser grants the audio context of the playback an action may
    reach. *)
Definition playback_granted (a : Action) : bool :=
  match a with
  | TimerTick P => context_at_playback P
  | TestReminder P => context_at_playback P
  | _ => true
  end.

(** The actions that reach [calculateUrgency]: the initial load, a timer
    tick in a new hour, and a click on the test button that gets past
    [initAudio]. *)
Definition writes_urgency (tza : Zone) (a : Action) (w : World) : bool :=
  match a with
  | InitialDataLoad _ => true
  | TimerTick _ => negb (Date.getHours tza (clock w) =? lastHourCheckRef w)
  | TestReminder P => audioContext w || context_at_click P
  | _ => false
  end.

(** ** Sample runs *)

Module Sample.

(** China Standard Time: eight hours ahead, all year. *)
Definition tza : Zone := fun _ _ => 8 * Date.msPerHour.

Definition key : option jsstring := Some (lit "secret").

(** A service that is down, and one that answers; the browser grants
    its audio contexts. *)
Definition down : Provider :=
  {| flash_text := fun _ => Rejects;
     flash_tts := fun _ => Rejects;
     flash_image := fun _ => Rejects;
     decodeAudioData := fun _ => None;
     context_at_click := true;
     context_at_playback := true |}.

Definition up : Provider :=
  {| flash_text := fun _ => Responds (Some (lit " 请尽快完成课程 "));
     flash_tts := fun _ => Responds (Some (lit "UklGRg=="));
     flash_image := fun _ => Responds [None; Some (lit "iVBORw0KGgo=")];
     decodeAudioData := fun _ => Some {| samples := [0; 1; 0] |};
     context_at_click := true;
     context_at_playback := true |}.

(** The service answers, the browser refuses every audio context. *)
Definition refused : Provider :=
  {| flash_text := flash_text up;
     flash_tts := flash_tts up;
     flash_image := flash_image up;
     decodeAudioData := decodeAudioData up;
     context_at_click := false;
     context_at_playback := false |}.

(** 2024-11-29 10:59:00, 2024-06-01 09:00:00 and 2024-12-01 00:00:00,
    local time. *)
Definition nov29_1059 : Z := Date.construct tza 2024 10 29 10 59 0.
Definition jun1_0900 : Z := Date.construct tza 2024 5 1 9 0 0.
Definition dec1_0000 : Z := Date.construct tza 2024 11 1 0 0 0.
Definition nov1_1200 : Z := Date.construct tza 2024 10 1 12 0 0.

(** Almaty: six hours ahead until 2024-02-29 18:00 UTC, five hours ahead
    since; a local time that the change repeats is read with the offset
    before it. *)
Definition change_2024 : Z := 19782 * Date.msPerDay + 18 * Date.msPerHour.

Definition almaty : Zone :=
  fun t isUTC =>
    if isUTC
    then (if t <? change_2024
          then 6 * Date.msPerHour else 5 * Date.msPerHour)
    else (if t <? change_2024 + 6 * Date.msPerHour
          then 6 * Date.msPerHour else 5 * Date.msPerHour).

(** 2023-12-01 00:00:00 in Almaty. *)
Definition dec1_2023 : Z := Date.construct almaty 2023 11 1 0 0 0.

(** The page loaded on November 29 and left open until December 3,
    23:59:59, three days after the deadline. *)
Definition left_open : World :=
  with_clock (Date.construct tza 2024 11 3 23 59 59) (load tza nov29_1059).

(** The page an hour before the deadline and in June. *)
Definition last_hour : World :=
  with_clock (Date.construct tza 2024 10 30 22 59 59) (load tza nov29_1059).
Definition in_june : World := load tza jun1_0900.

(** The page with the sound switched off. *)
Definition muted : World := with_isSoundEnabled false (load tza nov29_1059).

End Sample.

(** * Proofs *)

(** ** Laws of the computations *)

Section Laws.
Context {A B : Type}.

Lemma bind_read (f : World -> A) (k : A -> M B) w :
  bind (read f) k w = k (f w) w.
Proof. unfold bind, read. destruct (k (f w) w); reflexivity. Qed.

Lemma bind_emit ev (k : unit -> M A) w :
  bind (emit ev) k w =
  match k tt w with
  | mkRun o w2 e2 => mkRun o w2 (ev :: e2)
  end.
Proof. reflexivity. Qed.

Lemma emitted_bind_emit ev (k : unit -> M A) w :
  emitted (bind (emit ev) k w) = ev :: emitted (k tt w).
Proof. rewrite bind_emit. destruct (k tt w); reflexivity. Qed.

Lemma bind_update g (k : unit -> M A) w :
  bind (update g) k w = k tt (g w).
Proof. unfold bind, update. destruct (k tt (g w)); reflexivity. Qed.
End Laws.

Section Preserves.
Context {S : Type} (f : World -> S).

Lemma preserves_ret {A} (a : A) : preserves f (ret a).
Proof. intros w. reflexivity. Qed.

Lemma preserves_throw {A} e : preserves f (@throw A e).
Proof. intros w. reflexivity. Qed.

Lemma preserves_emit ev : preserves f (emit ev).
Proof. intros w. reflexivity. Qed.

Lemma preserves_read {A} (g : World -> A) : preserves f (read g).
Proof. intros w. reflexivity. Qed.

Lemma preserves_update g :
  (forall w, f (g w) = f w) -> preserves f (update g).
Proof. intros H w. apply H. Qed.

Lemma preserves_bind {A B} (m : M A) (k : A -> M B) :
  preserves f m -> (forall a, preserves f (k a)) -> preserves f (bind m k).
Proof.
  intros Hm Hk w. unfold bind. specialize (Hm w).
  destruct (m w) as [[a | e] w1 e1]; cbn in Hm |- *; [ | exact Hm].
  specialize (Hk a w1). destruct (k a w1) as [o w2 e2]. cbn in Hk |- *.
  congruence.
Qed.

Lemma preserves_try_catch {A} (m : M A) (h : Error -> M A) :
  preserves f m -> (forall e, preserves f (h e)) ->
  preserves f (try_catch m h).
Proof.
  intros Hm Hh w. unfold try_catch. specialize (Hm w).
  destruct (m w) as [[a | e] w1 e1]; cbn in Hm |- *; [exact Hm | ].
  specialize (Hh e w1). destruct (h e w1) as [o w2 e2]. cbn in Hh |- *.
  congruence.
Qed.

Lemma preserves_detached (m : M unit) :
  preserves f m -> preserves f (detached m).
Proof.
  intros Hm w. unfold detached. specialize (Hm w).
  destruct (m w) as [[a | e] w1 e1]; exact Hm.
Qed.

Lemma preserves_handler (m : M unit) :
  preserves f m -> preserves f (handler m).
Proof.
  intros Hm w. unfold handler. specialize (Hm w).
  destruct (m w) as [[a | e] w1 e1]; exact Hm.
Qed.
End Preserves.

Section Silent.
Variable f : Event -> bool.

Lemma silent_ret {A} (a : A) : silent f (ret a).
Proof. intros w. reflexivity. Qed.

Lemma silent_throw {A} e : silent f (@throw A e).
Proof. intros w. reflexivity. Qed.

Lemma silent_emit ev : f ev = false -> silent f (emit ev).
Proof. intros H w. cbn. rewrite H. reflexivity. Qed.

Lemma silent_read {A} (g : World -> A) : silent f (read g).
Proof. intros w. reflexivity. Qed.

Lemma silent_update g : silent f (update g).
Proof. intros w. reflexivity. Qed.

Lemma silent_bind {A B} (m : M A) (k : A -> M B) :
  silent f m -> (forall a, silent f (k a)) -> silent f (bind m k).
Proof.
  intros Hm Hk w. unfold bind. specialize (Hm w).
  destruct (m w) as [[a | e] w1 e1]; cbn in Hm |- *; [ | exact Hm].
  specialize (Hk a w1). destruct (k a w1) as [o w2 e2]. cbn in Hk |- *.
  rewrite filter_app, Hm, Hk. reflexivity.
Qed.

Lemma silent_try_catch {A} (m : M A) (h : Error -> M A) :
  silent f m -> (forall e, silent f (h e)) -> silent f (try_catch m h).
Proof.
  intros Hm Hh w. unfold try_catch. specialize (Hm w).
  destruct (m w) as [[a | e] w1 e1]; cbn in Hm |- *; [exact Hm | ].
  specialize (Hh e w1). destruct (h e w1) as [o w2 e2]. cbn in Hh |- *.
  rewrite filter_app, Hm, Hh. reflexivity.
Qed.

Lemma silent_detached (m : M unit) :
  (forall e, f (UnhandledRejection e) = false) ->
  silent f m -> silent f (detached m).
Proof.
  intros Hf Hm w. unfold detached. specialize (Hm w).
  destruct (m w) as [[a | e] w1 e1]; cbn in Hm |- *; [exact Hm | ].
  rewrite filter_app, Hm. cbn. rewrite Hf. reflexivity.
Qed.

Lemma silent_handler (m : M unit) :
  (forall e, f (UncaughtError e) = false) ->
  silent f m -> silent f (handler m).
Proof.
  intros Hf Hm w. unfold handler. specialize (Hm w).
  destruct (m w) as [[a | e] w1 e1]; cbn in Hm |- *; [exact Hm | ].
  rewrite filter_app, Hm. cbn. rewrite Hf. reflexivity.
Qed.
End Silent.

Create HintDb app.
#[export] Hint Unfold setUrgency setCurrentMessage setShowPopup setIsSoundEnabled
  setIsImageLoading setSafetyImageUrl setAudioContext console_log
  console_error new_Date generateContent_text generateContent_tts
  generateContent_image generateReminderText generateSpeech
  generateSafetyImage new_AudioContext initAudio calculateUrgency play
  triggerReminder_of
  triggerReminder initialDataLoad hourlyTimerCheck toggleSound testReminder
  dismissPopup perform : app.

(** ** The client singleton *)

Section Client.
Variable key : option jsstring.

Lemma getGenAI_cached w ai :
  genAI w = Some ai -> getGenAI key w = mkRun (Returned ai) w [].
Proof. intros H. unfold getGenAI. rewrite bind_read, H. reflexivity. Qed.

Lemma getGenAI_built w k :
  genAI w = None -> key = Some k -> truthy k = true ->
  getGenAI key w =
  mkRun (Returned {| apiKey := k |})
        (with_genAI (Some {| apiKey := k |}) w) [].
Proof.
  intros H -> T. unfold getGenAI. rewrite bind_read, H, T. reflexivity.
Qed.

Lemma getGenAI_fatal w :
  key_missing key = true -> genAI w = None -> fatal (getGenAI key) w.
Proof.
  intros K H. unfold fatal, getGenAI. rewrite bind_read, H.
  destruct key as [k | ]; [ | repeat split].
  cbn in K. destruct (truthy k); [discriminate | repeat split].
Qed.

Lemma getGenAI_preserves {S} (f : World -> S) :
  (forall g w, f (with_genAI g w) = f w) -> preserves f (getGenAI key).
Proof.
  intros Hf w. unfold getGenAI. rewrite bind_read.
  destruct (genAI w); [reflexivity | ].
  destruct key as [k | ]; [ | reflexivity].
  destruct (truthy k); [ | reflexivity]. cbn. apply Hf.
Qed.

Lemma getGenAI_silent f :
  f (ConsoleError (lit "API_KEY is missing from environment variables."))
  = false ->
  silent f (getGenAI key).
Proof.
  intros Hf w. unfold getGenAI. rewrite bind_read.
  destruct (genAI w); [reflexivity | ].
  destruct key as [k | ]; [destruct (truthy k); [reflexivity | ] | ];
    cbv [console_error bind emit throw outcome final emitted app filter];
    rewrite Hf; reflexivity.
Qed.

Lemma getGenAI_keeps_missing :
  key_missing key = true -> preserves genAI (getGenAI key).
Proof.
  intros K w. unfold getGenAI. rewrite bind_read.
  destruct (genAI w) eqn:E; [exact E | ].
  destruct key as [k | ]; [ | exact E].
  cbn in K. destruct (truthy k); [discriminate | exact E].
Qed.

Lemma fatal_bind {A B} (m : M A) (k : A -> M B) w :
  fatal m w -> fatal (bind m k) w.
Proof.
  unfold fatal, bind. intros (Ho & Hf & He).
  destruct (m w) as [[a | e] w1 e1]; cbn in Ho, Hf, He |- *;
    [discriminate | ].
  injection Ho as ->. repeat split; assumption.
Qed.

Lemma fatal_after_emit {A} ev (m : M A) w :
  is_request ev = false -> fatal m w -> fatal (bind (emit ev) (fun _ => m)) w.
Proof.
  unfold fatal. rewrite bind_emit. intros Hev (Ho & Hf & He).
  destruct (m w) as [o w1 e1]; cbn in Ho, Hf, He |- *.
  rewrite Hev. exact (conj Ho (conj Hf He)).
Qed.
End Client.

(** One step through the syntax of a computation. *)
Ltac preserve_step :=
  match goal with
  | |- preserves _ (bind _ _) => apply preserves_bind; [ | intros ? ]
  | |- preserves _ (try_catch _ _) => apply preserves_try_catch; [ | intros ? ]
  | |- preserves _ (detached _) => apply preserves_detached
  | |- preserves _ (handler _) => apply preserves_handler
  | |- preserves _ (ret _) => apply preserves_ret
  | |- preserves _ (throw _) => apply preserves_throw
  | |- preserves _ (emit _) => apply preserves_emit
  | |- preserves _ (read _) => apply preserves_read
  | |- preserves _ (update _) => apply preserves_update; intros ?; reflexivity
  | |- preserves genAI (getGenAI _) =>
    apply getGenAI_keeps_missing; assumption
  | |- preserves _ (getGenAI _) =>
    apply getGenAI_preserves; intros ? ?; reflexivity
  | |- preserves _ (match ?x with _ => _ end) => destruct x
  end.

Ltac silent_step :=
  match goal with
  | |- silent _ (bind _ _) => apply silent_bind; [ | intros ? ]
  | |- silent _ (try_catch _ _) => apply silent_try_catch; [ | intros ? ]
  | |- silent _ (detached _) =>
    apply silent_detached; [ intros ?; reflexivity | ]
  | |- silent _ (handler _) =>
    apply silent_handler; [ intros ?; reflexivity | ]
  | |- silent _ (ret _) => apply silent_ret
  | |- silent _ (throw _) => apply silent_throw
  | |- silent _ (emit _) => apply silent_emit; reflexivity
  | |- silent _ (read _) => apply silent_read
  | |- silent _ (update _) => apply silent_update
  | |- silent _ (getGenAI _) => apply getGenAI_silent; reflexivity
  | |- silent _ (match ?x with _ => _ end) => destruct x
  end.

Section DeadlineFixed.
Variables (tza : Zone) (key : option jsstring).

Lemma perform_preserves_DEADLINE a : preserves DEADLINE (perform tza key a).
Proof.
  destruct a; cbn [perform]; autounfold with app; repeat preserve_step.
Qed.

Lemma perform_all_preserves_DEADLINE acts :
  preserves DEADLINE (perform_all tza key acts).
Proof.
  induction acts as [ | a rest IH]; cbn [perform_all].
  - apply preserves_ret.
  - apply preserves_bind; [apply perform_preserves_DEADLINE | intros _; exact IH].
Qed.
End DeadlineFixed.

Section MissingKey.
Variables (tza : Zone) (key : option jsstring).
Hypothesis missing : key_missing key = true.

Lemma perform_keeps_genAI a : preserves genAI (perform tza key a).
Proof.
  destruct a; cbn [perform]; autounfold with app; repeat preserve_step.
Qed.

Lemma perform_all_keeps_genAI acts :
  preserves genAI (perform_all tza key acts).
Proof.
  induction acts as [ | a rest IH]; cbn [perform_all].
  - apply preserves_ret.
  - apply preserves_bind; [apply perform_keeps_genAI | intros _; exact IH].
Qed.
End MissingKey.

(** ** The classifier *)

Lemma Math_ceil_div a p :
  let c := Math_ceil (inject_Z a / inject_Z (Zpos p)) in
  (c - 1) * Zpos p < a <= c * Zpos p.
Proof.
  unfold Math_ceil, Qceiling, Qfloor, Qdiv, Qmult, Qinv, Qopp, inject_Z.
  cbn [Qnum Qden]. rewrite Z.mul_1_r, Pos.mul_1_l.
  pose proof (Z.mul_div_le (- a) (Zpos p) eq_refl).
  pose proof (Z.mul_succ_div_gt (- a) (Zpos p) eq_refl).
  cbv zeta. lia.
Qed.

Lemma classify_figures now deadline :
  let u := classify now deadline in
  let diff := Z.abs (deadline - now) in
  ((diffDays u - 1) * 86400000 < diff <= diffDays u * 86400000)
  /\ ((diffHours u - 1) * 3600000 < diff <= diffHours u * 3600000).
Proof.
  cbv zeta. unfold classify. cbn [diffDays diffHours].
  change (1000 * 60 * 60 * 24) with 86400000.
  change (1000 * 60 * 60) with 3600000.
  split; apply Math_ceil_div.
Qed.

Lemma classify_level now deadline :
  let u := classify now deadline in
  level u =
  if diffDays u <=? 2 then CRITICAL
  else if diffDays u <=? 7 then HIGH
  else if diffDays u <=? 14 then MEDIUM
  else LOW.
Proof. reflexivity. Qed.

Lemma calculateUrgency_run w :
  let u := classify (clock w) (DEADLINE w) in
  calculateUrgency w =
  mkRun (Returned u) (with_urgency (level u) w) [SetUrgency (level u)].
Proof. reflexivity. Qed.

(** C1.  For every reading of the clock and every deadline, the classifier
    returns [diffDays] and [diffHours] equal to the ceilings of
    |deadline - now| in days and in hours (the least integer whose multiple
    of the unit reaches the difference), and picks the tier by the first
    rule that matches: at most 2 days CRITICAL, at most 7 HIGH, at most 14
    MEDIUM, LOW otherwise. *)
Theorem calculateUrgency_classifies :
  forall w : World,
  exists u,
    outcome (calculateUrgency w) = Returned u
    /\ (let diff := Z.abs (DEADLINE w - clock w) in
        ((diffDays u - 1) * 86400000 < diff <= diffDays u * 86400000)
        /\ ((diffHours u - 1) * 3600000 < diff <= diffHours u * 3600000))
    /\ (diffDays u <= 2 -> level u = CRITICAL)
    /\ (3 <= diffDays u <= 7 -> level u = HIGH)
    /\ (8 <= diffDays u <= 14 -> level u = MEDIUM)
    /\ (14 < diffDays u -> level u = LOW).
Proof.
  intros w. exists (classify (clock w) (DEADLINE w)).
  split; [reflexivity | ].
  split; [apply classify_figures | ].
  pose proof (classify_level (clock w) (DEADLINE w)) as L. cbv zeta in L.
  rewrite L. clear L.
  set (d := diffDays (classify (clock w) (DEADLINE w))).
  destruct (Z.leb_spec d 2), (Z.leb_spec d 7), (Z.leb_spec d 14);
    repeat split; intros; try reflexivity; lia.
Qed.

Example boundary_days :
  map (fun k => level (classify (100 * 86400000 - k * 86400000)
                                (100 * 86400000)))
      [2; 3; 7; 8; 14; 15]
  = [CRITICAL; HIGH; HIGH; MEDIUM; MEDIUM; LOW].
Proof. vm_compute. reflexivity. Qed.

(** C5, as the code has it.  When the clock is past the deadline the
    figures are the ceilings of the time elapsed since the deadline, and the
    tier is the one of that elapsed time: CRITICAL only up to two days after
    the deadline, then HIGH up to seven, MEDIUM up to fourteen, LOW
    afterwards.  No tier stands for an overdue state. *)
Theorem missed_deadline_tier :
  forall w : World,
    DEADLINE w < clock w ->
    exists u,
      outcome (calculateUrgency w) = Returned u
      /\ (let late := clock w - DEADLINE w in
          ((diffDays u - 1) * 86400000 < late <= diffDays u * 86400000)
          /\ ((diffHours u - 1) * 3600000 < late <= diffHours u * 3600000)
          /\ (level u = CRITICAL <-> late <= 2 * 86400000)
          /\ (level u = HIGH <-> 2 * 86400000 < late <= 7 * 86400000)
          /\ (level u = MEDIUM <-> 7 * 86400000 < late <= 14 * 86400000)
          /\ (level u = LOW <-> 14 * 86400000 < late)).
Proof.
  intros w H. exists (classify (clock w) (DEADLINE w)).
  split; [reflexivity | ]. cbv zeta.
  pose proof (classify_figures (clock w) (DEADLINE w)) as F. cbv zeta in F.
  replace (Z.abs (DEADLINE w - clock w)) with (clock w - DEADLINE w) in F
    by lia.
  destruct F as (Fd & Fh).
  pose proof (classify_level (clock w) (DEADLINE w)) as L. cbv zeta in L.
  rewrite L. clear L.
  set (d := diffDays (classify (clock w) (DEADLINE w))) in *.
  split; [exact Fd | ]. split; [exact Fh | ].
  destruct (Z.leb_spec d 2), (Z.leb_spec d 7), (Z.leb_spec d 14);
    repeat split; intros; try reflexivity; try discriminate; try lia.
Qed.

Lemma missed_deadline_tier_witness :
  DEADLINE Sample.left_open < clock Sample.left_open
  /\ exists u, outcome (calculateUrgency Sample.left_open) = Returned u
               /\ level u = HIGH.
Proof.
  assert (H : DEADLINE Sample.left_open < clock Sample.left_open)
    by (vm_compute; reflexivity).
  split; [exact H | ].
  destruct (missed_deadline_tier Sample.left_open H) as (u & Hu & _ & _ & _ & Hh & _).
  exists u. split; [exact Hu | ].
  apply Hh. vm_compute. split; [reflexivity | discriminate].
Defined.

Lemma missed_deadline_not_critical :
  DEADLINE Sample.left_open < clock Sample.left_open
  /\ outcome (calculateUrgency Sample.left_open)
     = Returned {| level := HIGH; diffDays := 3; diffHours := 72 |}.
Proof. split; vm_compute; reflexivity. Qed.

(** C6, as the code has it.  The result of the classifier depends on the
    clock and the deadline alone: two worlds that agree on both give the
    same result, however many calls were made in between.  The call is not
    free of effects: it stores the tier it computed in the [urgency] state
    and does nothing else. *)
Theorem calculateUrgency_deterministic :
  forall w1 w2 : World,
    clock w1 = clock w2 -> DEADLINE w1 = DEADLINE w2 ->
    outcome (calculateUrgency w1) = outcome (calculateUrgency w2)
    /\ (exists u,
          outcome (calculateUrgency w1) = Returned u
          /\ final (calculateUrgency w1) = with_urgency (level u) w1
          /\ emitted (calculateUrgency w1) = [SetUrgency (level u)])
    /\ (forall n : nat,
          outcome (calculateUrgency
                     (Nat.iter n (fun w => final (calculateUrgency w)) w1))
          = outcome (calculateUrgency w1)).
Proof.
  intros w1 w2 Hc Hd. split; [ | split].
  - rewrite !calculateUrgency_run. cbn [outcome]. rewrite Hc, Hd.
    reflexivity.
  - exists (classify (clock w1) (DEADLINE w1)). repeat split.
  - intros n.
    assert (K : clock (Nat.iter n (fun w => final (calculateUrgency w)) w1)
                = clock w1
                /\ DEADLINE (Nat.iter n (fun w => final (calculateUrgency w)) w1)
                   = DEADLINE w1).
    { induction n as [ | n IH]; [split; reflexivity | ].
      rewrite Nat.iter_succ, calculateUrgency_run. exact IH. }
    destruct K as (Kc & Kd).
    rewrite !calculateUrgency_run. cbn [outcome]. rewrite Kc, Kd.
    reflexivity.
Qed.

Lemma calculateUrgency_deterministic_witness :
  outcome (calculateUrgency Sample.muted)
  = outcome (calculateUrgency (load Sample.tza Sample.nov29_1059)).
Proof.
  assert (Hc : clock Sample.muted = clock (load Sample.tza Sample.nov29_1059))
    by reflexivity.
  assert (Hd : DEADLINE Sample.muted
               = DEADLINE (load Sample.tza Sample.nov29_1059))
    by reflexivity.
  exact (proj1 (calculateUrgency_deterministic _ _ Hc Hd)).
Defined.

Lemma calculateUrgency_writes_urgency :
  let w := load Sample.tza Sample.nov29_1059 in
  urgency w = LOW
  /\ urgency (final (calculateUrgency w)) = CRITICAL
  /\ emitted (calculateUrgency w) = [SetUrgency CRITICAL]
  /\ final (calculateUrgency w) <> w.
Proof.
  cbv zeta. split; [reflexivity | ].
  assert (U : urgency (final (calculateUrgency
                                (load Sample.tza Sample.nov29_1059)))
              = CRITICAL) by (vm_compute; reflexivity).
  split; [exact U | ]. split; [vm_compute; reflexivity | ].
  intros E. rewrite E in U. discriminate U.
Qed.

(** ** Episodes *)

Lemma detached_returns m w : outcome (detached m w) = Returned tt.
Proof. unfold detached. destruct (m w) as [[a | e] w1 e1]; reflexivity. Qed.

Lemma detached_emitted f m w :
  (forall e, f (UnhandledRejection e) = false) ->
  filter f (emitted (detached m w)) = filter f (emitted (m w)).
Proof.
  intros Hf. unfold detached.
  destruct (m w) as [[a | e] w1 e1]; cbn; [reflexivity | ].
  rewrite filter_app. cbn. rewrite Hf. apply app_nil_r.
Qed.

Section Episode.
Variables (key : option jsstring) (P : Provider).

Lemma triggerReminder_eq manual w :
  triggerReminder key P manual w =
  triggerReminder_of key (isSoundEnabled w) P manual w.
Proof. unfold triggerReminder. apply bind_read. Qed.

(** An episode announces itself once, at its start. *)
Lemma triggerReminder_of_head en manual w :
  exists evs,
    emitted (triggerReminder_of key en P manual w)
    = Call_triggerReminder manual :: evs
    /\ filter is_episode evs = [].
Proof.
  unfold triggerReminder_of. rewrite emitted_bind_emit.
  eexists. split; [reflexivity | ].
  match goal with |- filter _ (emitted (?m w)) = [] =>
    enough (S : silent is_episode m) by apply S end.
  autounfold with app. repeat silent_step.
Qed.

Lemma triggerReminder_preserves_ref manual :
  preserves lastHourCheckRef (triggerReminder key P manual).
Proof. autounfold with app. repeat preserve_step. Qed.

Lemma muted_episode_silent manual :
  silent is_audio (triggerReminder_of key false P manual).
Proof.
  unfold triggerReminder_of. cbv beta iota.
  autounfold with app. repeat silent_step.
Qed.
End Episode.

(** C7.  An episode run while the sound preference is false never calls
    [generateSpeech], sends no speech request and starts no playback. *)
Theorem sound_off_no_speech :
  forall (key : option jsstring) (P : Provider) (manual : bool) (w : World),
    isSoundEnabled w = false ->
    filter is_audio (emitted (triggerReminder key P manual w)) = [].
Proof.
  intros key P manual w H. rewrite triggerReminder_eq, H.
  apply muted_episode_silent.
Qed.

Lemma sound_off_no_speech_witness :
  isSoundEnabled Sample.muted = false
  /\ filter is_audio
       (emitted (triggerReminder Sample.key Sample.up true Sample.muted)) = [].
Proof.
  split; [reflexivity | apply sound_off_no_speech; reflexivity].
Defined.

Example sound_on_speaks :
  filter is_audio
    (emitted (triggerReminder Sample.key Sample.up true
                (load Sample.tza Sample.nov29_1059)))
  = [Call_generateSpeech (lit "请尽快完成课程");
     SpeechRequest (lit "请尽快完成课程");
     AudioStart {| samples := [0; 1; 0] |}].
Proof. vm_compute. reflexivity. Qed.


(** ** The course of an episode *)

Section Course.
Variables (key : option jsstring) (P : Provider).

Lemma triggerReminder_of_run en manual w :
  let u := classify (clock w) (DEADLINE w) in
  let g := generateReminderText key P (level u) (diffDays u) (diffHours u)
             (with_urgency (level u) w) in
  let pre :=
    Call_triggerReminder manual
    :: (if manual then []
        else [ConsoleLog (lit "Auto-triggering reminder...")])
    ++ [SetUrgency (level u)] in
  triggerReminder_of key en P manual w =
  match outcome g with
  | Thrown e => mkRun (Thrown e) (final g) (pre ++ emitted g)
  | Returned text =>
    let a := speak key P en text
               (with_showPopup true (with_currentMessage text (final g))) in
    mkRun (outcome a) (final a)
          (pre ++ emitted g
               ++ [SetCurrentMessage text; SetShowPopup true] ++ emitted a)
  end.
Proof.
  cbv zeta.
  change (triggerReminder_of key en P manual)
    with (emit (Call_triggerReminder manual) ;;
          (if negb manual then console_log "Auto-triggering reminder..."
           else ret tt) ;;
          u <- calculateUrgency ;;
          text <- generateReminderText key P (level u) (diffDays u)
                    (diffHours u) ;;
          setCurrentMessage text ;;
          setShowPopup true ;;
          speak key P en text).
  unfold calculateUrgency, new_Date, setUrgency, setCurrentMessage,
    setShowPopup, console_log.
  unfold bind, emit, read, update, ret.
  destruct manual; cbv beta iota zeta delta [negb];
    generalize (classify (clock w) (DEADLINE w)) as u; intros u;
    destruct (generateReminderText key P (level u) (diffDays u) (diffHours u)
                (with_urgency (level u) w)) as [[text | e] wg eg];
    cbn [outcome final emitted app]; try reflexivity;
    destruct (speak key P en text
                (with_showPopup true (with_currentMessage text wg)))
      as [o wa ea]; reflexivity.
Qed.
End Course.

(** ** Text, fallbacks and the audio path *)

Ltac run_app :=
  autounfold with app;
  unfold getGenAI, bind, try_catch, detached, emit, read, update, ret, throw;
  cbv beta iota zeta.

Section Text.
Variables (key : option jsstring) (P : Provider).

Lemma generateReminderText_silent f l d h :
  (forall p, f (TextRequest p) = false) ->
  (forall s, f (ConsoleError s) = false) ->
  silent f (generateReminderText key P l d h).
Proof.
  intros Hr Hc. autounfold with app.
  repeat first
    [ silent_step
    | apply getGenAI_silent; apply Hc
    | apply silent_emit; first [apply Hr | apply Hc] ].
Qed.

Lemma speak_silent_reveal en text : silent is_reveal (speak key P en text).
Proof. unfold speak. autounfold with app. repeat silent_step. Qed.

Lemma speak_preserves {S} (f : World -> S) en text :
  (forall g w, f (with_genAI g w) = f w) ->
  preserves f (speak key P en text).
Proof.
  intros Hf. unfold speak. autounfold with app.
  repeat first [ apply getGenAI_preserves; exact Hf | preserve_step ].
Qed.

(** With a client at hand the audio path ends in one of two ways: it
    returns, or the playback block throws on a refused audio context. *)
Lemma speak_run en text w :
  genAI w <> None ->
  outcome (speak key P en text w)
  = (if en then
       match spoken P text with
       | Some _ =>
         if context_at_playback P then Returned tt
         else Thrown AudioContextRefused
       | None => Returned tt
       end
     else Returned tt)
  /\ filter is_playback (emitted (speak key P en text w))
     = (if en then
          match spoken P text with
          | Some b => if context_at_playback P then [AudioStart b] else []
          | None => []
          end
        else []).
Proof.
  intros H. destruct (genAI w) as [ai | ] eqn:G; [clear H | contradiction].
  unfold speak, spoken. destruct en; [ | split; reflexivity].
  run_app. rewrite G.
  destruct (flash_tts P text) as [ | [data | ]];
    try (split; reflexivity).
  destruct (truthy data); [ | split; reflexivity].
  destruct (decodeAudioData P data); [ | split; reflexivity].
  destruct (context_at_playback P); split; reflexivity.
Qed.

Lemma speak_outcome en text w :
  genAI w <> None ->
  outcome (speak key P en text w) = Returned tt
  \/ outcome (speak key P en text w) = Thrown AudioContextRefused.
Proof.
  intros H. destruct (speak_run en text w H) as (-> & _).
  destruct en; [ | auto]. destruct (spoken P text); [ | auto].
  destruct (context_at_playback P); auto.
Qed.

(** With a client at hand the text call always returns: the answer of the
    service trimmed, or one of the two fixed sentences. *)
Lemma generateReminderText_available l d h w :
  genAI w <> None \/ key_missing key = false ->
  let p := text_prompt l d h in
  exists w',
    generateReminderText key P l d h w =
    mkRun (Returned
             match flash_text P p with
             | Rejects => lit "请注意：安全课程需要在11月30日前完成。"
             | Responds t =>
               or_else (option_map trim t) (lit "请立即完成安全课程！")
             end)
          w'
          (TextRequest p
           :: match flash_text P p with
              | Rejects => [ConsoleError (lit "Error generating text:")]
              | Responds _ => []
              end)
    /\ genAI w' <> None.
Proof.
  intros H. cbv zeta. run_app.
  destruct (genAI w) as [ai | ] eqn:G.
  - exists w. destruct (flash_text P (text_prompt l d h)) as [ | t];
      cbn [app]; (split; [reflexivity | congruence]).
  - destruct H as [H | H]; [contradiction | ].
    destruct key as [k | ]; [ | discriminate H]. cbn in H.
    destruct (truthy k); [ | discriminate H].
    exists (with_genAI (Some {| apiKey := k |}) w).
    destruct (flash_text P (text_prompt l d h)) as [ | t];
      cbn [app]; (split; [reflexivity | discriminate]).
Qed.

Lemma generateReminderText_unavailable l d h w :
  genAI w = None -> key_missing key = true ->
  fatal (generateReminderText key P l d h) w.
Proof.
  intros G K. unfold generateReminderText.
  apply fatal_bind, getGenAI_fatal; assumption.
Qed.
End Text.

Lemma or_else_nonempty a b : b <> [] -> or_else a b <> [].
Proof.
  intros Hb. unfold or_else. destruct a as [s | ]; [ | exact Hb].
  destruct s; [exact Hb | discriminate].
Qed.

Lemma or_else_blank t b : blank t -> or_else (option_map trim t) b = b.
Proof.
  destruct t as [s | ]; cbn; [ | reflexivity]. intros ->. reflexivity.
Qed.

Lemma In_request_filter ev evs :
  In ev evs -> is_request ev = true -> filter is_request evs <> [].
Proof.
  intros Hin Hr E.
  assert (I : In ev (filter is_request evs)) by (apply filter_In; auto).
  rewrite E in I. exact I.
Qed.

Lemma episode_with_text_request key P manual w :
  let u := classify (clock w) (DEADLINE w) in
  let p := text_prompt (level u) (diffDays u) (diffHours u) in
  let r := triggerReminder key P manual w in
  In (TextRequest p) (emitted r) ->
  let text :=
    match flash_text P p with
    | Rejects => lit "请注意：安全课程需要在11月30日前完成。"
    | Responds t => or_else (option_map trim t) (lit "请立即完成安全课程！")
    end in
  In (SetCurrentMessage text) (emitted r)
  /\ In (SetShowPopup true) (emitted r)
  /\ currentMessage (final r) = text
  /\ showPopup (final r) = true
  /\ (outcome r = Returned tt \/ outcome r = Thrown AudioContextRefused)
  /\ (isSoundEnabled w = false \/ context_at_playback P = true ->
      outcome r = Returned tt).
Proof.
  intros u p r Hin text. subst r.
  rewrite triggerReminder_eq in Hin |- *.
  pose proof (triggerReminder_of_run key P (isSoundEnabled w) manual w) as R.
  cbv zeta in R. fold u in R. rewrite R in Hin |- *. clear R.
  assert (Av : genAI (with_urgency (level u) w) <> None
               \/ key_missing key = false).
  { destruct (genAI w) as [ai | ] eqn:G; [left; cbn; congruence | ].
    destruct (key_missing key) eqn:K; [ | right; reflexivity].
    exfalso.
    destruct (generateReminderText_unavailable key P (level u) (diffDays u)
                (diffHours u) (with_urgency (level u) w) G K)
      as (Ho & _ & He).
    rewrite Ho in Hin. cbn [emitted] in Hin.
    apply (In_request_filter _ _ Hin eq_refl).
    rewrite filter_app, He. destruct manual; reflexivity. }
  destruct (generateReminderText_available key P (level u) (diffDays u)
              (diffHours u) (with_urgency (level u) w) Av) as (w' & G & Gn).
  fold p in G. rewrite G. cbn [outcome final emitted]. fold text.
  set (w2 := with_showPopup true (with_currentMessage text w')).
  assert (Gn2 : genAI w2 <> None) by exact Gn.
  split; [ | split; [ | split; [ | split; [ | split]]]].
  - apply in_or_app. right. apply in_or_app. right. left. reflexivity.
  - apply in_or_app. right. apply in_or_app. right. right. left.
    reflexivity.
  - rewrite (speak_preserves key P currentMessage); reflexivity.
  - rewrite (speak_preserves key P showPopup); reflexivity.
  - apply speak_outcome, Gn2.
  - intros Q. destruct (speak_run key P (isSoundEnabled w) text w2 Gn2)
      as (-> & _).
    destruct (isSoundEnabled w); [ | reflexivity].
    destruct Q as [Q | ->]; [discriminate Q | ].
    destruct (spoken P text); reflexivity.
Qed.

Lemma episode_sends_text_request key P manual w :
  genAI w <> None \/ key_missing key = false ->
  let u := classify (clock w) (DEADLINE w) in
  In (TextRequest (text_prompt (level u) (diffDays u) (diffHours u)))
     (emitted (triggerReminder key P manual w)).
Proof.
  intros H u. rewrite triggerReminder_eq.
  pose proof (triggerReminder_of_run key P (isSoundEnabled w) manual w) as R.
  cbv zeta in R. fold u in R. rewrite R. clear R.
  destruct (generateReminderText_available key P (level u) (diffDays u)
              (diffHours u) (with_urgency (level u) w) H) as (w' & G & _).
  rewrite G. cbn [outcome final emitted].
  apply in_or_app. right. left. reflexivity.
Qed.

(** C4, as the code has it.  In every episode, if the text request fails
    the episode still reveals a message that is not empty, the fixed
    sentence "请注意：安全课程需要在11月30日前完成。", however the episode ends;
    if the request is answered with no text or only white space it reveals
    "请立即完成安全课程！".  Neither sentence depends on the tier.  The
    failure of the request is never what the episode throws: the episode
    returns, or throws the refusal of the audio context met later at
    playback, and it returns whenever the sound is off or the context is
    granted.  The request is sent in every episode that has a client or a
    non-empty API key. *)
Theorem text_failure_falls_back :
  forall (key : option jsstring) (P : Provider) (manual : bool) (w : World),
    let u := classify (clock w) (DEADLINE w) in
    let p := text_prompt (level u) (diffDays u) (diffHours u) in
    let r := triggerReminder key P manual w in
    (text_request_fails P p r ->
     In (SetCurrentMessage (lit "请注意：安全课程需要在11月30日前完成。"))
        (emitted r)
     /\ In (SetShowPopup true) (emitted r)
     /\ currentMessage (final r)
        = lit "请注意：安全课程需要在11月30日前完成。"
     /\ currentMessage (final r) <> []
     /\ showPopup (final r) = true
     /\ outcome r <> Thrown RequestFailed
     /\ (outcome r = Returned tt \/ outcome r = Thrown AudioContextRefused)
     /\ (isSoundEnabled w = false \/ context_at_playback P = true ->
         outcome r = Returned tt))
    /\ (forall t,
           text_request_answers P p r t -> blank t ->
           In (SetCurrentMessage (lit "请立即完成安全课程！")) (emitted r)
           /\ In (SetShowPopup true) (emitted r)
           /\ currentMessage (final r) = lit "请立即完成安全课程！"
           /\ currentMessage (final r) <> []
           /\ showPopup (final r) = true
           /\ (outcome r = Returned tt
               \/ outcome r = Thrown AudioContextRefused))
    /\ (genAI w <> None \/ key_missing key = false ->
        In (TextRequest p) (emitted r)).
Proof.
  intros key P manual w u p r. split; [ | split].
  - intros (Hin & Hf).
    pose proof (episode_with_text_request key P manual w Hin) as E.
    cbv zeta in E. fold u p r in E. rewrite Hf in E.
    destruct E as (E1 & E2 & E3 & E4 & E5 & E6).
    repeat split; try assumption.
    + rewrite E3. discriminate.
    + destruct E5 as [-> | ->]; discriminate.
  - intros t (Hin & Ha) B.
    pose proof (episode_with_text_request key P manual w Hin) as E.
    cbv zeta in E. fold u p r in E. rewrite Ha in E.
    rewrite (or_else_blank t _ B) in E.
    destruct E as (E1 & E2 & E3 & E4 & E5 & _).
    repeat split; try assumption.
    rewrite E3. discriminate.
  - intros H. exact (episode_sends_text_request key P manual w H).
Qed.

Lemma text_failure_falls_back_witness :
  currentMessage
    (final (triggerReminder Sample.key Sample.down false Sample.last_hour))
  = lit "请注意：安全课程需要在11月30日前完成。".
Proof.
  pose proof (text_failure_falls_back Sample.key Sample.down false
                Sample.last_hour) as T.
  cbv zeta in T. destruct T as (T & _).
  match type of T with
  | ?H -> _ => assert (Hf : H) by (split; vm_compute; auto 10)
  end.
  destruct (T Hf) as (_ & _ & Hr & _).
  exact Hr.
Defined.

(** The fallback is one sentence for every tier, and an episode without an
    API key reveals none: the text call throws before any request is sent
    and the episode throws with it. *)
Lemma fallback_same_for_CRITICAL_and_LOW :
  let r1 := triggerReminder Sample.key Sample.down false Sample.last_hour in
  let r2 := triggerReminder Sample.key Sample.down false Sample.in_june in
  let r3 := triggerReminder None Sample.down false Sample.last_hour in
  (urgency (final r1) = CRITICAL
   /\ urgency (final r2) = LOW
   /\ currentMessage (final r1) = currentMessage (final r2))
  /\ (outcome r3 = Thrown ApiKeyNotFound
      /\ filter is_reveal (emitted r3) = []
      /\ filter is_request (emitted r3) = []
      /\ currentMessage (final r3) = currentMessage Sample.last_hour).
Proof. vm_compute. repeat split. Qed.

(** C9.  In every episode that obtains its text, the two reveal calls
    (set the message, show the popup) come right after the events of the
    text call, no speech call, speech request or playback comes before
    them, and whatever the audio path does afterwards the message and the
    popup stay as revealed.  An episode whose text call throws reveals
    nothing and touches no audio. *)
Theorem reveal_before_audio :
  forall (key : option jsstring) (P : Provider) (manual : bool) (w : World),
    let r := triggerReminder key P manual w in
    let u := classify (clock w) (DEADLINE w) in
    let g := generateReminderText key P (level u) (diffDays u) (diffHours u)
               (with_urgency (level u) w) in
    match outcome g with
    | Thrown e =>
      outcome r = Thrown e
      /\ filter is_reveal (emitted r) = []
      /\ filter is_audio (emitted r) = []
    | Returned text =>
      exists pre post,
        emitted r
        = pre ++ emitted g
              ++ [SetCurrentMessage text; SetShowPopup true] ++ post
        /\ filter is_audio (pre ++ emitted g) = []
        /\ filter is_reveal (pre ++ emitted g) = []
        /\ filter is_reveal post = []
        /\ currentMessage (final r) = text
        /\ showPopup (final r) = true
    end.
Proof.
  intros key P manual w. cbv zeta.
  rewrite triggerReminder_eq.
  pose proof (triggerReminder_of_run key P (isSoundEnabled w) manual w) as R.
  cbv zeta in R. rewrite R. clear R.
  set (u := classify (clock w) (DEADLINE w)).
  pose proof (generateReminderText_silent key P is_audio (level u)
                (diffDays u) (diffHours u) (fun _ => eq_refl)
                (fun _ => eq_refl) (with_urgency (level u) w)) as Sa.
  pose proof (generateReminderText_silent key P is_reveal (level u)
                (diffDays u) (diffHours u) (fun _ => eq_refl)
                (fun _ => eq_refl) (with_urgency (level u) w)) as Sr.
  destruct (generateReminderText key P (level u) (diffDays u) (diffHours u)
              (with_urgency (level u) w)) as [[text | e] wg eg];
    cbn [outcome final emitted] in *.
  - eexists. eexists. split; [reflexivity | ].
    rewrite !filter_app, Sa, Sr.
    split; [destruct manual; reflexivity | ].
    split; [destruct manual; reflexivity | ].
    split; [apply speak_silent_reveal | ].
    split.
    + rewrite (speak_preserves key P currentMessage); reflexivity.
    + rewrite (speak_preserves key P showPopup); reflexivity.
  - rewrite !filter_app, Sa, Sr. destruct manual; repeat split.
Qed.

Example reveal_then_audio :
  emitted (triggerReminder Sample.key Sample.up true
             (load Sample.tza Sample.nov29_1059))
  = [Call_triggerReminder true;
     SetUrgency CRITICAL;
     TextRequest {| prompt_urgency := CRITICAL; prompt_figure := 38 |};
     SetCurrentMessage (lit "请尽快完成课程");
     SetShowPopup true;
     Call_generateSpeech (lit "请尽快完成课程");
     SpeechRequest (lit "请尽快完成课程");
     AudioStart {| samples := [0; 1; 0] |}].
Proof. vm_compute. reflexivity. Qed.

(** C8.  With no API key in the environment, in every state the page can
    reach, each of the three service calls throws "API Key not found",
    sends no request and leaves the client unbuilt, so that the next call
    fails the same way; an episode then throws too and reveals nothing. *)
Theorem missing_key_is_fatal :
  forall (tza : Zone) (key : option jsstring) (acts : list Action) (now : Z)
         (P : Provider) (l : UrgencyLevel) (d h : Z) (text : jsstring)
         (manual : bool),
    key_missing key = true ->
    let w := final (perform_all tza key acts (load tza now)) in
    fatal (generateReminderText key P l d h) w
    /\ fatal (generateSpeech key P text) w
    /\ fatal (generateSafetyImage key P l) w
    /\ (let r := triggerReminder key P manual w in
        outcome r = Thrown ApiKeyNotFound
        /\ filter is_reveal (emitted r) = []
        /\ filter is_request (emitted r) = []
        /\ genAI (final r) = None).
Proof.
  intros tza key acts now P l d h text manual K w.
  assert (G : genAI w = None).
  { subst w. rewrite (perform_all_keeps_genAI tza key K). reflexivity. }
  pose proof (getGenAI_fatal key w K G) as F.
  split; [ | split; [ | split]].
  - unfold generateReminderText. apply fatal_bind, F.
  - unfold generateSpeech. apply fatal_after_emit; [reflexivity | ].
    apply fatal_bind, F.
  - unfold generateSafetyImage. apply fatal_bind, F.
  - cbv zeta. rewrite triggerReminder_eq.
    pose proof (triggerReminder_of_run key P (isSoundEnabled w) manual w)
      as R.
    cbv zeta in R. rewrite R. clear R.
    set (u := classify (clock w) (DEADLINE w)).
    destruct (generateReminderText_unavailable key P (level u) (diffDays u)
                (diffHours u) (with_urgency (level u) w) G K)
      as (Ho & Hf & He).
    pose proof (generateReminderText_silent key P is_reveal (level u)
                  (diffDays u) (diffHours u) (fun _ => eq_refl)
                  (fun _ => eq_refl) (with_urgency (level u) w)) as Sr.
    rewrite Ho. cbn [outcome final emitted].
    rewrite !filter_app, Sr, He, Hf.
    destruct manual; repeat split; exact G.
Qed.

Lemma missing_key_is_fatal_witness :
  fatal (generateSafetyImage None Sample.up CRITICAL)
        (final (perform_all Sample.tza None
                  [InitialDataLoad Sample.up; TestReminder Sample.up]
                  (load Sample.tza Sample.nov29_1059))).
Proof.
  apply (missing_key_is_fatal Sample.tza None
           [InitialDataLoad Sample.up; TestReminder Sample.up]
           Sample.nov29_1059 Sample.up CRITICAL 0 0 [] true).
  reflexivity.
Defined.

Example image_with_key :
  outcome (generateSafetyImage Sample.key Sample.up CRITICAL
             (load Sample.tza Sample.nov29_1059))
  = Returned
      {| imageUrl := Some (lit "data:image/png;base64,iVBORw0KGgo=");
         description := lit "Generated Anime Style Safety Image" |}.
Proof. vm_compute. reflexivity. Qed.

Example hour_boundary :
  let mounted := load Sample.tza Sample.nov29_1059 in
  let at_1100 :=
    perform_all Sample.tza Sample.key
      [ClockAdvance (Sample.nov29_1059 + checkInterval);
       TimerTick Sample.down] mounted in
  let at_1130 :=
    perform_all Sample.tza Sample.key
      [ClockAdvance (Sample.nov29_1059 + 31 * checkInterval);
       TimerTick Sample.down] (final at_1100) in
  lastHourCheckRef mounted = 10
  /\ count_if is_auto_episode (emitted at_1100) = 1%nat
  /\ lastHourCheckRef (final at_1100) = 11
  /\ count_if is_episode (emitted at_1130) = 0%nat.
Proof. vm_compute. repeat split. Qed.

(** ** The calendar and the deadline *)

Module DateFacts.
Import Date.

Lemma DayFromYear_succ y : DayFromYear (y + 1) = DayFromYear y + DaysInYear y.
Proof.
  unfold DayFromYear, DaysInYear.
  destruct (Z.eqb_spec (y mod 4) 0); destruct (Z.eqb_spec (y mod 100) 0);
    destruct (Z.eqb_spec (y mod 400) 0); cbn [negb];
    Z.div_mod_to_equations; lia.
Qed.

Lemma DaysInYear_cases y : DaysInYear y = 365 \/ DaysInYear y = 366.
Proof.
  unfold DaysInYear.
  destruct (y mod 4 =? 0), (y mod 100 =? 0), (y mod 400 =? 0); cbn; auto.
Qed.

Lemma DayFromYear_mono a b : a <= b -> DayFromYear a <= DayFromYear b.
Proof.
  intros H. unfold DayFromYear. Z.div_mod_to_equations. lia.
Qed.

Lemma YearFromDay_spec d :
  DayFromYear (YearFromDay d) <= d < DayFromYear (YearFromDay d + 1).
Proof.
  unfold YearFromDay. cbv zeta.
  set (q := d * 400 / 146097).
  assert (Hq : 146097 * q <= d * 400 < 146097 * q + 146097).
  { subst q. pose proof (Z.mul_div_le (d * 400) 146097).
    pose proof (Z.mul_succ_div_gt (d * 400) 146097). lia. }
  clearbody q.
  destruct (Z.ltb_spec d (DayFromYear (1970 + q))) as [H1 | H1].
  - unfold DayFromYear in *. Z.div_mod_to_equations. lia.
  - destruct (Z.leb_spec (DayFromYear (1970 + q + 1)) d) as [H2 | H2].
    + unfold DayFromYear in *. Z.div_mod_to_equations. lia.
    + lia.
Qed.

Lemma YearFromDay_unique d y :
  DayFromYear y <= d < DayFromYear (y + 1) -> YearFromDay d = y.
Proof.
  intros H. pose proof (YearFromDay_spec d) as S.
  destruct (Z.lt_trichotomy (YearFromDay d) y) as [L | [E | G]]; [ | exact E | ].
  - pose proof (DayFromYear_mono (YearFromDay d + 1) y). lia.
  - pose proof (DayFromYear_mono (y + 1) (YearFromDay d)). lia.
Qed.

Lemma Day_MakeDate day time :
  0 <= time < msPerDay -> Day (MakeDate day time) = day.
Proof.
  intros H. unfold Day, MakeDate, msPerDay in *.
  rewrite Z.add_comm, Z.div_add by lia. rewrite Z.div_small by lia. lia.
Qed.

Lemma TimeWithinDay_MakeDate day time :
  0 <= time < msPerDay -> TimeWithinDay (MakeDate day time) = time.
Proof.
  intros H. unfold TimeWithinDay, MakeDate, msPerDay in *.
  rewrite Z.add_comm, Z.mod_add by lia. apply Z.mod_small; lia.
Qed.

(** The day number of November 30 of a year. *)
Lemma MakeDay_Nov30 y :
  MakeDay y 10 30 = DayFromYear y + 363 + (DaysInYear y - 365) - 30.
Proof.
  unfold MakeDay. cbv zeta.
  change (10 / 12) with 0. change (10 mod 12) with 10.
  rewrite Z.add_0_r. unfold monthStart.
  destruct (DaysInYear_cases y) as [E | E]; rewrite E; cbn; lia.
Qed.

Lemma YearFromTime_within y day time :
  0 <= time < msPerDay ->
  DayFromYear y <= day < DayFromYear y + DaysInYear y ->
  YearFromTime (MakeDate day time) = y.
Proof.
  intros Ht Hd. unfold YearFromTime. rewrite Day_MakeDate by exact Ht.
  apply YearFromDay_unique. rewrite DayFromYear_succ. exact Hd.
Qed.

Lemma fields_Nov30 y time :
  0 <= time < msPerDay ->
  let t := MakeDate (MakeDay y 10 30) time in
  YearFromTime t = y /\ MonthFromTime t = 10 /\ DateFromTime t = 30.
Proof.
  intros Ht t.
  assert (Hy : YearFromTime t = y).
  { subst t. apply YearFromTime_within; [exact Ht | ].
    rewrite MakeDay_Nov30. destruct (DaysInYear_cases y); lia. }
  assert (Hd : DayWithinYear t = 333 + InLeapYear t).
  { unfold DayWithinYear, InLeapYear. rewrite Hy. subst t.
    rewrite Day_MakeDate by exact Ht. rewrite MakeDay_Nov30.
    destruct (DaysInYear_cases y) as [E | E]; rewrite E; cbn; lia. }
  assert (Hl : InLeapYear t = 0 \/ InLeapYear t = 1).
  { unfold InLeapYear. destruct (_ =? _); auto. }
  assert (Hm : MonthFromTime t = 10).
  { unfold MonthFromTime. cbv zeta. rewrite Hd.
    destruct Hl as [E | E]; rewrite E; reflexivity. }
  repeat split; [exact Hy | exact Hm | ].
  unfold DateFromTime. cbv zeta. rewrite Hm, Hd. lia.
Qed.


Lemma clock_fields day :
  let t := MakeDate day (MakeTime 23 59 59 0) in
  HourFromTime t = 23 /\ MinFromTime t = 59 /\ SecFromTime t = 59
  /\ msFromTime t = 0.
Proof.
  unfold HourFromTime, MinFromTime, SecFromTime, msFromTime, MakeDate,
    MakeTime, msPerHour, msPerMinute, msPerSecond, msPerDay.
  cbv zeta. repeat split; Z.div_mod_to_equations; lia.
Qed.

Lemma MakeTime_end_of_day : 0 <= MakeTime 23 59 59 0 < msPerDay.
Proof. unfold MakeTime, msPerHour, msPerMinute, msPerSecond, msPerDay. lia. Qed.

Lemma Day_bounds t : Day t * msPerDay <= t < (Day t + 1) * msPerDay.
Proof.
  unfold Day, msPerDay. Z.div_mod_to_equations. lia.
Qed.

(** The local fields of the last second of November pin the local time
    value. *)
Lemma local_time_of_Nov30 y t :
  YearFromTime t = y -> MonthFromTime t = 10 -> DateFromTime t = 30 ->
  HourFromTime t = 23 -> MinFromTime t = 59 -> SecFromTime t = 59 ->
  msFromTime t = 0 ->
  t = MakeDate (MakeDay y 10 30) (MakeTime 23 59 59 0).
Proof.
  intros Hy Hm Hd Hh Hmi Hs Hms.
  assert (D : Day t = MakeDay y 10 30).
  { rewrite MakeDay_Nov30. unfold DateFromTime in Hd. cbv zeta in Hd.
    rewrite Hm in Hd. unfold DayWithinYear, InLeapYear in Hd.
    rewrite Hy in Hd.
    destruct (DaysInYear_cases y) as [E | E]; rewrite E in *;
      [ change (365 =? 366) with false in Hd
      | change (366 =? 366) with true in Hd ];
      cbv beta iota in Hd; lia. }
  unfold MakeDate. rewrite <- D.
  unfold Day, HourFromTime, MinFromTime, SecFromTime, msFromTime, MakeTime,
    msPerDay, msPerHour, msPerMinute, msPerSecond in *.
  Z.div_mod_to_equations. lia.
Qed.

End DateFacts.

Lemma constant_zone_settled c x : settled (fun _ _ => c) x.
Proof.
  unfold settled, Date.LocalTime, Date.UTC. repeat split; intros; lia.
Qed.

Lemma Sample_zone_settled : november_settled Sample.tza.
Proof. intros y. apply constant_zone_settled. Qed.

Section DeadlineFacts.
Import Date DateFacts.
Variable tza : Zone.

Lemma fields_nov30 y :
  settled tza (localNov30 y) -> fields tza (nov30 tza y) = Nov30_235959 y.
Proof.
  intros (E & _).
  unfold fields, nov30, getFullYear, getMonth, getDate, getHours,
    getMinutes, getSeconds, getMilliseconds.
  rewrite E. unfold localNov30.
  destruct (fields_Nov30 y _ MakeTime_end_of_day) as (Hy & Hm & Hd).
  destruct (clock_fields (MakeDay y 10 30)) as (Hh & Hmi & Hs & Hms).
  rewrite Hy, Hm, Hd, Hh, Hmi, Hs, Hms. reflexivity.
Qed.

Lemma nov30_of_fields y t :
  settled tza (localNov30 y) ->
  fields tza t = Nov30_235959 y -> t = nov30 tza y.
Proof.
  intros (E & Lo & Hi) F.
  unfold fields, Nov30_235959, getFullYear, getMonth, getDate, getHours,
    getMinutes, getSeconds, getMilliseconds in F.
  injection F as Fy Fm Fd Fh Fmi Fs Fms.
  pose proof (local_time_of_Nov30 y _ Fy Fm Fd Fh Fmi Fs Fms) as L.
  fold (localNov30 y) in L. unfold nov30.
  destruct (Z.lt_trichotomy t (UTC tza (localNov30 y))) as [C | [C | C]].
  - specialize (Lo t C). lia.
  - exact C.
  - specialize (Hi t C). lia.
Qed.

Lemma setFullYear_nov30 y y' :
  settled tza (localNov30 y) ->
  setFullYear tza (nov30 tza y) y' = nov30 tza y'.
Proof.
  intros (E & _). unfold setFullYear, nov30. cbv zeta. rewrite E.
  unfold localNov30.
  destruct (fields_Nov30 y _ MakeTime_end_of_day) as (_ & Hm & Hd).
  rewrite Hm, Hd, TimeWithinDay_MakeDate by exact MakeTime_end_of_day.
  reflexivity.
Qed.

Lemma construct_nov30 y :
  construct tza y 10 30 23 59 59 = nov30 tza (MakeFullYear y).
Proof. unfold construct, nov30, localNov30. reflexivity. Qed.

Lemma getDeadline_eq now :
  settled tza (localNov30 (MakeFullYear (getFullYear tza now))) ->
  getDeadline tza now =
  let year := getFullYear tza now in
  if now >? nov30 tza (MakeFullYear year)
  then nov30 tza (year + 1)
  else nov30 tza (MakeFullYear year).
Proof.
  intros S. unfold getDeadline. cbv zeta. rewrite construct_nov30.
  rewrite (setFullYear_nov30 _ _ S). reflexivity.
Qed.

Lemma localNov30_day y :
  localNov30 y =
  (DayFromYear y + 333 + (DaysInYear y - 365)) * msPerDay + 86399000.
Proof.
  unfold localNov30, MakeDate. rewrite MakeDay_Nov30.
  unfold MakeTime, msPerHour, msPerMinute, msPerSecond. lia.
Qed.

Lemma local_year_bounds now :
  DayFromYear (getFullYear tza now) * msPerDay <= LocalTime tza now
  /\ LocalTime tza now < DayFromYear (getFullYear tza now + 1) * msPerDay.
Proof.
  unfold getFullYear, YearFromTime.
  pose proof (YearFromDay_spec (Day (LocalTime tza now))) as S.
  pose proof (Day_bounds (LocalTime tza now)) as B.
  unfold msPerDay in *. nia.
Qed.

(** In a settled zone an instant is past [x] on the time line exactly
    when its local reading is past [x]. *)
Lemma passed_iff x now :
  settled tza x -> (UTC tza x < now <-> x < LocalTime tza now).
Proof.
  intros (E & Lo & Hi). split; [apply Hi | ].
  intros L. destruct (Z.lt_trichotomy now (UTC tza x)) as [C | [C | C]].
  - specialize (Lo now C). lia.
  - subst now. lia.
  - exact C.
Qed.

Lemma MakeFullYear_cases y :
  (y < 0 \/ 99 < y) /\ MakeFullYear y = y
  \/ 0 <= y <= 99 /\ MakeFullYear y = 1900 + y.
Proof.
  unfold MakeFullYear.
  destruct (Z.leb_spec 0 y), (Z.leb_spec y 99); cbn; lia.
Qed.

Lemma now_le_getDeadline now :
  november_settled tza -> now <= getDeadline tza now.
Proof.
  intros N. rewrite getDeadline_eq by apply N. cbv zeta.
  destruct (Z.gtb_spec now (nov30 tza (MakeFullYear (getFullYear tza now))))
    as [H | H]; [ | exact H].
  destruct (Z.le_gt_cases now (nov30 tza (getFullYear tza now + 1)))
    as [C | C]; [exact C | exfalso].
  apply (passed_iff _ _ (N _)) in C.
  destruct (local_year_bounds now) as (_ & B).
  rewrite localNov30_day in C.
  destruct (DaysInYear_cases (getFullYear tza now + 1)) as [E | E];
    rewrite E in C; unfold msPerDay in *; lia.
Qed.

Lemma local_day_of_date now mth dt :
  (mth = 10 \/ mth = 11) ->
  getMonth tza now = mth -> getDate tza now = dt ->
  Day (LocalTime tza now) =
  DayFromYear (getFullYear tza now) + monthStart mth
    (DaysInYear (getFullYear tza now) - 365) + dt - 1.
Proof.
  unfold getMonth, getDate, getFullYear.
  intros Hc Hm Hd.
  unfold DateFromTime in Hd. cbv zeta in Hd. rewrite Hm in Hd.
  unfold DayWithinYear, InLeapYear in Hd.
  destruct (DaysInYear_cases (YearFromTime (LocalTime tza now))) as [E | E];
    rewrite E in *;
    [ change (365 =? 366) with false in Hd
    | change (366 =? 366) with true in Hd ];
    destruct Hc as [-> | ->]; cbv beta iota delta [monthStart] in *; lia.
Qed.

(** The rule of [getDeadline] for a year the Date constructor takes as it
    is. *)
Lemma getDeadline_rule now y :
  november_settled tza -> y < 0 \/ 99 < y -> getFullYear tza now = y ->
  (now <= nov30 tza y -> getDeadline tza now = nov30 tza y)
  /\ (nov30 tza y < now -> getDeadline tza now = nov30 tza (y + 1)).
Proof.
  intros N Hy HY. rewrite getDeadline_eq by apply N. cbv zeta. rewrite HY.
  destruct (MakeFullYear_cases y) as [(_ & ->) | (C & _)]; [ | lia].
  destruct (Z.gtb_spec now (nov30 tza y)); split; intros; try reflexivity;
    lia.
Qed.

Lemma getDeadline_Dec1 now y :
  november_settled tza -> y < 0 \/ 99 < y ->
  getFullYear tza now = y -> getMonth tza now = 11 -> getDate tza now = 1 ->
  getDeadline tza now = nov30 tza (y + 1).
Proof.
  intros N Hy HY HM HD.
  apply (getDeadline_rule now y N Hy HY).
  apply (passed_iff _ _ (N y)).
  pose proof (local_day_of_date now 11 1 (or_intror eq_refl) HM HD) as W.
  rewrite HY in W.
  pose proof (Day_bounds (LocalTime tza now)) as B.
  rewrite localNov30_day.
  destruct (DaysInYear_cases y) as [E | E]; rewrite E in *;
    cbv beta iota delta [monthStart] in W; unfold msPerDay in *; lia.
Qed.

Lemma getDeadline_Nov1 now y :
  november_settled tza -> y < 0 \/ 99 < y ->
  getFullYear tza now = y -> getMonth tza now = 10 -> getDate tza now = 1 ->
  getDeadline tza now = nov30 tza y.
Proof.
  intros N Hy HY HM HD.
  apply (getDeadline_rule now y N Hy HY).
  destruct (Z.le_gt_cases now (nov30 tza y)) as [C | C]; [exact C | exfalso].
  apply (passed_iff _ _ (N y)) in C.
  pose proof (local_day_of_date now 10 1 (or_introl eq_refl) HM HD) as W.
  rewrite HY in W.
  pose proof (Day_bounds (LocalTime tza now)) as B.
  rewrite localNov30_day in C.
  destruct (DaysInYear_cases y) as [E | E]; rewrite E in *;
    cbv beta iota delta [monthStart] in W; unfold msPerDay in *; lia.
Qed.
End DeadlineFacts.

(** A zone that changes its offset outside the last second of November is
    settled there. *)
Lemma almaty_settled : november_settled Sample.almaty.
Proof.
  intros y. rewrite (localNov30_day y).
  assert (B : (Date.DayFromYear y + 333 + (Date.DaysInYear y - 365))
              * Date.msPerDay + 86399000 < Sample.change_2024
              \/ Sample.change_2024 + 6 * Date.msPerHour
                 <= (Date.DayFromYear y + 333 + (Date.DaysInYear y - 365))
                    * Date.msPerDay + 86399000).
  { destruct (DateFacts.DaysInYear_cases y) as [E | E]; rewrite E;
      (destruct (Z.le_gt_cases y 2023) as [C | C];
       [ left; pose proof (DateFacts.DayFromYear_mono y 2023 C) as M;
         change (Date.DayFromYear 2023) with 19358 in M
       | right;
         pose proof (DateFacts.DayFromYear_mono 2024 y ltac:(lia)) as M;
         change (Date.DayFromYear 2024) with 19723 in M ]);
      unfold Sample.change_2024, Date.msPerDay, Date.msPerHour; lia. }
  set (x := (Date.DayFromYear y + 333 + (Date.DaysInYear y - 365))
            * Date.msPerDay + 86399000) in *.
  clearbody x.
  unfold settled, Date.LocalTime, Date.UTC, Sample.almaty.
  unfold Sample.change_2024, Date.msPerDay, Date.msPerHour in *.
  repeat split; intros;
    repeat match goal with
           | |- context [?a <? ?b] => destruct (Z.ltb_spec a b)
           | H : context [?a <? ?b] |- _ => destruct (Z.ltb_spec a b)
           end; lia.
Qed.



Example two_digit_year :
  let utc : Zone := fun _ _ => 0 in
  let now := Date.UTC utc (Date.MakeDate (Date.MakeDay 50 11 1) 0) in
  on_day utc 50 11 1 now
  /\ fields utc (getDeadline utc now) = Nov30_235959 1950.
Proof. vm_compute. repeat split. Qed.



(** * Further properties *)

Module CountdownFacts.
Import Countdown.

Lemma floor_rem a q n :
  0 <= a ->
  Math_floor (rem (a # q) (inject_Z (Zpos n))) = (a / Zpos q) mod Zpos n.
Proof.
  intros Ha. unfold rem, Math_trunc, Math_floor.
  unfold Qdiv, Qinv, inject_Z. cbn [Qnum Qden].
  unfold Qmult at 2. cbn [Qnum Qden].
  rewrite Z.mul_1_r.
  destruct (Z.ltb_spec a 0) as [L | _]; [lia | ].
  unfold Qfloor at 2.
  unfold Qminus, Qopp, Qmult, Qplus. cbn [Qnum Qden].
  unfold Qfloor.
  rewrite !Pos.mul_1_r, !Z.mul_1_r.
  rewrite Pos2Z.inj_mul.
  rewrite <- Z.div_div by lia.
  rewrite Z.div_add by lia.
  rewrite Z.mod_eq by lia. lia.
Qed.

Lemma floor_div a p :
  Math_floor (inject_Z a / inject_Z (Zpos p))%Q = a / Zpos p.
Proof.
  unfold Math_floor, Qdiv, Qinv, Qmult, inject_Z, Qfloor. cbn [Qnum Qden].
  rewrite Z.mul_1_r. reflexivity.
Qed.

Lemma calculateTimeLeft_pos target now :
  now < target ->
  let d := target - now in
  calculateTimeLeft target now =
  {| days := d / 86400000;
     hours := (d / 3600000) mod 24;
     minutes := (d / 60000) mod 60;
     seconds := (d / 1000) mod 60 |}.
Proof.
  intros H. cbv zeta. unfold calculateTimeLeft. cbv zeta.
  destruct (Z.leb_spec (target - now) 0) as [L | _]; [lia | ].
  set (d := target - now) in *. assert (0 <= d) by lia.
  change (1000 * 60 * 60 * 24) with 86400000.
  change (1000 * 60 * 60) with 3600000.
  rewrite floor_div.
  assert (E1 : (inject_Z d / inject_Z 3600000 = (d # 3600000))%Q).
  { unfold Qdiv, Qinv, Qmult, inject_Z. cbn [Qnum Qden].
    rewrite Z.mul_1_r. reflexivity. }
  assert (E2 : (inject_Z d / inject_Z 1000 / inject_Z 60 = (d # 60000))%Q).
  { unfold Qdiv, Qinv, Qmult, inject_Z. cbn [Qnum Qden].
    rewrite !Z.mul_1_r. reflexivity. }
  assert (E3 : (inject_Z d / inject_Z 1000 = (d # 1000))%Q).
  { unfold Qdiv, Qinv, Qmult, inject_Z. cbn [Qnum Qden].
    rewrite Z.mul_1_r. reflexivity. }
  rewrite E1, E2, E3, !floor_rem by assumption. reflexivity.
Qed.


(** X1.  The countdown splits the time left into days, hours below 24,
    minutes below 60 and seconds below 60 that add up to the time left
    rounded down to the second; at or after the target all four are 0. *)
Theorem countdown_decomposes :
  forall target now : Z,
    let t := calculateTimeLeft target now in
    let shown :=
      days t * 86400000 + hours t * 3600000 + minutes t * 60000
      + seconds t * 1000 in
    0 <= days t
    /\ 0 <= hours t < 24
    /\ 0 <= minutes t < 60
    /\ 0 <= seconds t < 60
    /\ shown <= Z.max 0 (target - now) < shown + 1000.
Proof.
  intros target now. cbv zeta.
  destruct (Z.lt_ge_cases now target) as [H | H].
  - rewrite (calculateTimeLeft_pos target now H). cbn [days hours minutes seconds].
    set (d := target - now). assert (0 < d) by (subst d; lia).
    rewrite Z.max_r by lia. clearbody d.
    Z.div_mod_to_equations. lia.
  - unfold calculateTimeLeft. cbv zeta.
    destruct (Z.leb_spec (target - now) 0) as [_ | L]; [ | lia].
    cbn [days hours minutes seconds]. lia.
Qed.

(** X2.  Before the deadline the classifier's [diffDays] is the countdown's
    day figure plus one, except when the time left is a whole number of
    days, where both agree. *)
Theorem countdown_days_and_diffDays :
  forall deadline now : Z,
    now < deadline ->
    let t := calculateTimeLeft deadline now in
    let u := classify now deadline in
    diffDays u =
    days t + (if (deadline - now) mod 86400000 =? 0 then 0 else 1).
Proof.
  intros deadline now H. cbv zeta.
  rewrite (calculateTimeLeft_pos deadline now H). cbn [days].
  pose proof (classify_figures now deadline) as F. cbv zeta in F.
  destruct F as (Fd & _).
  replace (Z.abs (deadline - now)) with (deadline - now) in Fd by lia.
  set (d := deadline - now) in *. set (c := diffDays (classify now deadline)) in *.
  clearbody c d.
  destruct (Z.eqb_spec (d mod 86400000) 0); Z.div_mod_to_equations; lia.
Qed.

Lemma countdown_days_and_diffDays_witness :
  diffDays (classify (100 * 86400000 - 2 * 86400000 - 1) (100 * 86400000))
  = 3
  /\ days (calculateTimeLeft (100 * 86400000)
             (100 * 86400000 - 2 * 86400000 - 1)) = 2.
Proof.
  assert (H : 100 * 86400000 - 2 * 86400000 - 1 < 100 * 86400000)
    by reflexivity.
  pose proof (countdown_days_and_diffDays _ _ H) as E. cbv zeta in E.
  split; [rewrite E | ]; vm_compute; reflexivity.
Defined.

End CountdownFacts.

(** ** The service calls with a client at hand *)

Section Service.
Variables (key : option jsstring) (P : Provider).

Lemma generateSafetyImage_with_client :
  forall (l : UrgencyLevel) (w : World),
    genAI w <> None \/ key_missing key = false ->
    exists res,
      outcome (generateSafetyImage key P l w) = Returned res
      /\ filter is_request (emitted (generateSafetyImage key P l w))
         = [ImageRequest (image_prompt l)]
      /\ (forall url,
             imageUrl res = Some url <->
             exists parts data,
               flash_image P (image_prompt l) = Responds parts
               /\ first_inline parts = Some data
               /\ url = lit "data:image/png;base64," ++ data)
      /\ (flash_image P (image_prompt l) = Rejects ->
          res = {| imageUrl := None; description := lit "Error" |}).
Proof.
  intros l w H.
  assert (G : exists ai w',
             getGenAI key w = mkRun (Returned ai) w' []).
  { destruct (genAI w) as [ai | ] eqn:G.
    - exists ai, w. apply getGenAI_cached, G.
    - destruct H as [H | H]; [contradiction | ].
      destruct key as [k | ] eqn:K; [ | discriminate H]. cbn in H.
      destruct (truthy k) eqn:T; [ | discriminate H].
      eexists. eexists. apply (getGenAI_built (Some k) w k G eq_refl T). }
  destruct G as (ai & w' & G).
  unfold generateSafetyImage, generateContent_image, console_error,
    try_catch, bind, emit, ret, throw.
  rewrite G. cbv beta iota.
  destruct (flash_image P (image_prompt l)) as [ | parts];
    cbv beta iota; cbn [app].
  - eexists. split; [reflexivity | ]. split; [reflexivity | ].
    split; [ | reflexivity].
    intros url. cbn [imageUrl]. split; [discriminate | ].
    intros (parts & data & E & _). discriminate E.
  - destruct (first_inline parts) as [data | ] eqn:F; cbv beta iota;
      cbn [app]; eexists; (split; [reflexivity | ]);
      (split; [reflexivity | ]); (split; [ | discriminate]);
      intros url; cbn [imageUrl]; split.
    + intros E. injection E as <-. exists parts, data. auto.
    + intros (parts' & data' & E & F' & ->). injection E as <-.
      rewrite F in F'. injection F' as <-. reflexivity.
    + discriminate.
    + intros (parts' & data' & E & F' & _). injection E as <-.
      rewrite F in F'. discriminate F'.
Qed.

(** X3.  With a client at hand [generateSafetyImage] never throws and sends
    exactly one image request; the result carries a data URL exactly when
    a part of the answer has inline data, built from the first such part,
    and a rejected request gives the description "Error". *)
Theorem generateSafetyImage_never_throws :
  forall (l : UrgencyLevel) (w : World),
    genAI w <> None \/ key_missing key = false ->
    exists res,
      outcome (generateSafetyImage key P l w) = Returned res
      /\ filter is_request (emitted (generateSafetyImage key P l w))
         = [ImageRequest (image_prompt l)]
      /\ (forall url,
             imageUrl res = Some url <->
             exists parts data,
               flash_image P (image_prompt l) = Responds parts
               /\ first_inline parts = Some data
               /\ url = lit "data:image/png;base64," ++ data)
      /\ (flash_image P (image_prompt l) = Rejects ->
          res = {| imageUrl := None; description := lit "Error" |}).
Proof. exact generateSafetyImage_with_client. Qed.

Lemma generateSpeech_with_client :
  forall (text : jsstring) (w : World),
    genAI w <> None \/ key_missing key = false ->
    exists buffer,
      outcome (generateSpeech key P text w) = Returned buffer
      /\ filter is_request (emitted (generateSpeech key P text w))
         = [SpeechRequest text]
      /\ (forall b,
             buffer = Some b <->
             exists data,
               flash_tts P text = Responds (Some data)
               /\ data <> []
               /\ decodeAudioData P data = Some b).
Proof.
  intros text w H.
  assert (G : exists ai w',
             getGenAI key w = mkRun (Returned ai) w' []).
  { destruct (genAI w) as [ai | ] eqn:G.
    - exists ai, w. apply getGenAI_cached, G.
    - destruct H as [H | H]; [contradiction | ].
      destruct key as [k | ] eqn:K; [ | discriminate H]. cbn in H.
      destruct (truthy k) eqn:T; [ | discriminate H].
      eexists. eexists. apply (getGenAI_built (Some k) w k G eq_refl T). }
  destruct G as (ai & w' & G).
  unfold generateSpeech, generateContent_tts, console_error,
    try_catch, bind, emit, ret, throw.
  rewrite G. cbv beta iota.
  destruct (flash_tts P text) as [ | [data | ]]; cbv beta iota; cbn [app].
  - eexists. split; [reflexivity | ]. split; [reflexivity | ].
    intros b. split; [discriminate | ]. intros (d & E & _). discriminate E.
  - destruct data as [ | c data]; cbn [truthy]; cbv beta iota; cbn [app].
    + eexists. split; [reflexivity | ]. split; [reflexivity | ].
      intros b. split; [discriminate | ].
      intros (d & E & N & _). injection E as <-. contradiction.
    + destruct (decodeAudioData P (c :: data)) as [buf | ] eqn:D;
        cbv beta iota; cbn [app]; eexists; (split; [reflexivity | ]);
        (split; [reflexivity | ]); intros b; split.
      * intros E. injection E as <-. exists (c :: data).
        repeat split; [discriminate | exact D].
      * intros (d & E & _ & D'). injection E as <-. congruence.
      * discriminate.
      * intros (d & E & _ & D'). injection E as <-. congruence.
  - eexists. split; [reflexivity | ]. split; [reflexivity | ].
    intros b. split; [discriminate | ]. intros (d & E & _). discriminate E.
Qed.

(** X4.  With a client at hand [generateSpeech] never throws and sends
    exactly one speech request; it returns a buffer exactly when the answer
    carries a non-empty audio payload that decodes, and null otherwise. *)
Theorem generateSpeech_never_throws :
  forall (text : jsstring) (w : World),
    genAI w <> None \/ key_missing key = false ->
    exists buffer,
      outcome (generateSpeech key P text w) = Returned buffer
      /\ filter is_request (emitted (generateSpeech key P text w))
         = [SpeechRequest text]
      /\ (forall b,
             buffer = Some b <->
             exists data,
               flash_tts P text = Responds (Some data)
               /\ data <> []
               /\ decodeAudioData P data = Some b).
Proof. exact generateSpeech_with_client. Qed.
End Service.

(** ** Invariants of the page *)

Section Keeps.
Variable I : World -> Prop.

Lemma keeps_ret {A} (a : A) : keeps I (ret a).
Proof. intros w H. exact H. Qed.

Lemma keeps_throw {A} e : keeps I (@throw A e).
Proof. intros w H. exact H. Qed.

Lemma keeps_emit ev : keeps I (emit ev).
Proof. intros w H. exact H. Qed.

Lemma keeps_read {A} (g : World -> A) : keeps I (read g).
Proof. intros w H. exact H. Qed.

Lemma keeps_update g : (forall w, I w -> I (g w)) -> keeps I (update g).
Proof. intros H w Hw. apply H, Hw. Qed.

Lemma keeps_bind {A B} (m : M A) (k : A -> M B) :
  keeps I m -> (forall a, keeps I (k a)) -> keeps I (bind m k).
Proof.
  intros Hm Hk w Hw. unfold bind. specialize (Hm w Hw).
  destruct (m w) as [[a | e] w1 e1]; cbn in Hm |- *; [ | exact Hm].
  specialize (Hk a w1 Hm). destruct (k a w1) as [o w2 e2]. exact Hk.
Qed.

Lemma keeps_try_catch {A} (m : M A) (h : Error -> M A) :
  keeps I m -> (forall e, keeps I (h e)) -> keeps I (try_catch m h).
Proof.
  intros Hm Hh w Hw. unfold try_catch. specialize (Hm w Hw).
  destruct (m w) as [[a | e] w1 e1]; cbn in Hm |- *; [exact Hm | ].
  specialize (Hh e w1 Hm). destruct (h e w1) as [o w2 e2]. exact Hh.
Qed.

Lemma keeps_detached (m : M unit) : keeps I m -> keeps I (detached m).
Proof.
  intros Hm w Hw. unfold detached. specialize (Hm w Hw).
  destruct (m w) as [[a | e] w1 e1]; exact Hm.
Qed.

Lemma keeps_handler (m : M unit) : keeps I m -> keeps I (handler m).
Proof.
  intros Hm w Hw. unfold handler. specialize (Hm w Hw).
  destruct (m w) as [[a | e] w1 e1]; exact Hm.
Qed.

Lemma keeps_perform_all tza key :
  (forall a, keeps I (perform tza key a)) ->
  forall acts, keeps I (perform_all tza key acts).
Proof.
  intros H acts. induction acts as [ | a rest IH]; cbn [perform_all].
  - apply keeps_ret.
  - apply keeps_bind; [apply H | intros _; exact IH].
Qed.
End Keeps.

Ltac keep_step :=
  match goal with
  | |- keeps _ (bind _ _) => apply keeps_bind; [ | intros ? ]
  | |- keeps _ (try_catch _ _) => apply keeps_try_catch; [ | intros ? ]
  | |- keeps _ (detached _) => apply keeps_detached
  | |- keeps _ (handler _) => apply keeps_handler
  | |- keeps _ (ret _) => apply keeps_ret
  | |- keeps _ (throw _) => apply keeps_throw
  | |- keeps _ (emit _) => apply keeps_emit
  | |- keeps _ (read _) => apply keeps_read
  | |- keeps _ (update _) => apply keeps_update; intros ? ?; assumption
  | H : keeps ?I ?m |- keeps ?I ?m => exact H
  | |- keeps _ (match ?x with _ => _ end) => destruct x
  end.

Lemma getGenAI_client_of_key key : keeps (client_of_key key) (getGenAI key).
Proof.
  intros w H. unfold getGenAI. rewrite bind_read.
  destruct (genAI w) as [ai | ] eqn:G; [exact H | ].
  destruct key as [k | ]; [ | exact H].
  destruct (truthy k) eqn:T; [ | exact H].
  unfold bind, update, ret. cbn. unfold client_of_key. cbn. auto.
Qed.

(** X5.  In every state the page can reach, the cached client, if there is
    one, was built from the configured, non-empty API key. *)
Theorem client_built_from_key :
  forall (tza : Zone) (key : option jsstring) (acts : list Action) (now : Z),
    client_of_key key (final (perform_all tza key acts (load tza now))).
Proof.
  intros tza key acts now.
  apply keeps_perform_all; [ | exact I].
  pose proof (getGenAI_client_of_key key) as G.
  intros a. destruct a; cbn [perform]; autounfold with app;
    repeat keep_step.
Qed.

(** ** Every action runs to its end *)

Lemma returns_ret {A} (a : A) : returns (ret a).
Proof. intros w. exists a. reflexivity. Qed.

Lemma returns_emit ev : returns (emit ev).
Proof. intros w. exists tt. reflexivity. Qed.

Lemma returns_read {A} (g : World -> A) : returns (read g).
Proof. intros w. exists (g w). reflexivity. Qed.

Lemma returns_update g : returns (update g).
Proof. intros w. exists tt. reflexivity. Qed.

Lemma returns_detached m : returns (detached m).
Proof. intros w. exists tt. apply detached_returns. Qed.

Lemma handler_returns m w : outcome (handler m w) = Returned tt.
Proof. unfold handler. destruct (m w) as [[a | e] w1 e1]; reflexivity. Qed.

Lemma returns_handler m : returns (handler m).
Proof. intros w. exists tt. apply handler_returns. Qed.

Lemma returns_bind {A B} (m : M A) (k : A -> M B) :
  returns m -> (forall a, returns (k a)) -> returns (bind m k).
Proof.
  intros Hm Hk w. unfold bind. destruct (Hm w) as (a & Ha).
  destruct (m w) as [[a' | e] w1 e1]; cbn in Ha; [ | discriminate Ha].
  destruct (Hk a' w1) as (b & Hb).
  destruct (k a' w1) as [o w2 e2]. cbn in Hb |- *. exists b. exact Hb.
Qed.

Ltac return_step :=
  match goal with
  | |- returns (bind _ _) => apply returns_bind; [ | intros ? ]
  | |- returns (detached _) => apply returns_detached
  | |- returns (handler _) => apply returns_handler
  | |- returns (ret _) => apply returns_ret
  | |- returns (emit _) => apply returns_emit
  | |- returns (read _) => apply returns_read
  | |- returns (update _) => apply returns_update
  | |- returns (match ?x with _ => _ end) => destruct x
  end.

Lemma perform_returns tza key a : returns (perform tza key a).
Proof.
  destruct a; cbn [perform];
    unfold initialDataLoad, hourlyTimerCheck, toggleSound, testReminder,
      dismissPopup, initAudio, calculateUrgency, new_Date, setUrgency,
      setIsImageLoading, setIsSoundEnabled, setShowPopup, setAudioContext;
    repeat return_step.
Qed.

Lemma handlers_never_throw :
  forall (tza : Zone) (key : option jsstring) (acts : list Action) (w : World),
    outcome (perform_all tza key acts w) = Returned tt.
Proof.
  intros tza key acts. induction acts as [ | a rest IH]; intros w.
  - reflexivity.
  - cbn [perform_all]. unfold bind.
    destruct (perform_returns tza key a w) as (u & Hu).
    destruct (perform tza key a w) as [[[] | e] wa ea]; cbn in Hu;
      [ | discriminate Hu].
    specialize (IH wa). destruct (perform_all tza key rest wa) as [o wr er].
    exact IH.
Qed.

(** ** The initial load of the background image *)

(** X6.  With a client at hand the initial load never throws, sends one
    image request and ends with the loading flag cleared; the image URL
    stays null exactly when the request was rejected or no part of the
    answer had inline data. *)
Theorem initialDataLoad_clears_spinner :
  forall (key : option jsstring) (P : Provider) (w : World),
    genAI w <> None \/ key_missing key = false ->
    let r := initialDataLoad key P w in
    outcome r = Returned tt
    /\ isImageLoading (final r) = false
    /\ filter is_request (emitted r)
       = [ImageRequest
            (image_prompt (level (classify (clock w) (DEADLINE w))))]
    /\ (safetyImageUrl (final r) = None <->
        match flash_image P
                (image_prompt (level (classify (clock w) (DEADLINE w))))
        with
        | Rejects => True
        | Responds parts => first_inline parts = None
        end).
Proof.
  intros key P w H. cbv zeta.
  unfold initialDataLoad, calculateUrgency, new_Date, setUrgency,
    setIsImageLoading, setSafetyImageUrl, detached, bind, read, update,
    emit, ret.
  cbv beta iota zeta.
  set (l := level (classify (clock w) (DEADLINE w))).
  set (w1 := with_isImageLoading true (with_urgency l w)).
  assert (H1 : genAI w1 <> None \/ key_missing key = false) by exact H.
  destruct (generateSafetyImage_with_client key P l w1 H1)
    as (res & Ho & Hr & Hu & _).
  assert (Hw : isImageLoading (final (generateSafetyImage key P l w1)) = true).
  { assert (Pi : preserves isImageLoading (generateSafetyImage key P l))
      by (autounfold with app; repeat preserve_step).
    rewrite Pi. reflexivity. }
  destruct (generateSafetyImage key P l w1) as [[res' | e] wg eg];
    cbn [outcome final emitted] in Ho, Hr, Hw |- *; [ | discriminate Ho].
  injection Ho as ->. cbn [outcome final emitted app].
  split; [reflexivity | ]. split; [reflexivity | ].
  split.
  - cbn [filter is_request]. rewrite !filter_app, Hr. reflexivity.
  - cbn [safetyImageUrl with_isImageLoading with_safetyImageUrl].
    destruct (flash_image P (image_prompt l)) as [ | parts] eqn:F.
    + split; [auto | ]. intros _.
      destruct (imageUrl res) as [url | ] eqn:E; [ | reflexivity].
      destruct (proj1 (Hu url) eq_refl) as (parts & data & E' & _).
      discriminate E'.
    + split.
      * intros E. destruct (first_inline parts) as [data | ] eqn:Fi;
          [ | reflexivity].
        assert (U : imageUrl res
                    = Some (lit "data:image/png;base64," ++ data))
          by (apply Hu; exists parts, data; auto).
        congruence.
      * intros Fi. destruct (imageUrl res) as [url | ] eqn:E;
          [ | reflexivity].
        destruct (proj1 (Hu url) eq_refl) as (parts' & data & E' & Fi' & _).
        injection E' as <-. congruence.
Qed.

Lemma initialDataLoad_missing key P w :
  key_missing key = true -> genAI w = None ->
  let r := initialDataLoad key P w in
  isImageLoading (final r) = true
  /\ genAI (final r) = None
  /\ In (UnhandledRejection ApiKeyNotFound) (emitted r)
  /\ filter is_request (emitted r) = [].
Proof.
  intros K G. cbv zeta.
  unfold initialDataLoad, calculateUrgency, new_Date, setUrgency,
    setIsImageLoading, setSafetyImageUrl, detached, bind, read, update,
    emit, ret.
  cbv beta iota zeta.
  set (l := level (classify (clock w) (DEADLINE w))).
  set (w1 := with_isImageLoading true (with_urgency l w)).
  assert (F : fatal (generateSafetyImage key P l) w1).
  { unfold generateSafetyImage. apply fatal_bind, getGenAI_fatal; auto. }
  destruct F as (Ho & Hf & He).
  destruct (generateSafetyImage key P l w1) as [[res | e] wg eg];
    cbn [outcome final emitted] in Ho, Hf, He |- *; [discriminate Ho | ].
  injection Ho as ->. subst wg. cbn [outcome final emitted app].
  repeat split.
  - exact G.
  - right. right. apply in_or_app. right. left. reflexivity.
  - cbn [filter is_request]. rewrite filter_app, He. reflexivity.
Qed.

(** X7.  Without an API key, once the initial load has run the loading
    flag is true and stays true whatever happens afterwards: the rejected
    image call never reaches the code that clears it. *)
Theorem spinner_stuck_without_key :
  forall (tza : Zone) (key : option jsstring) (P : Provider)
         (before after : list Action) (now : Z),
    key_missing key = true ->
    isImageLoading
      (final (perform_all tza key (before ++ InitialDataLoad P :: after)
                (load tza now)))
    = true.
Proof.
  intros tza key P before after now K.
  assert (Inv : forall acts w,
             genAI w = None -> isImageLoading w = true ->
             isImageLoading (final (perform_all tza key acts w)) = true).
  { induction acts as [ | a rest IH]; intros w G L; [exact L | ].
    cbn [perform_all]. unfold bind.
    assert (Ga : genAI (final (perform tza key a w)) = None)
      by (rewrite (perform_keeps_genAI tza key K a w); exact G).
    assert (La : isImageLoading (final (perform tza key a w)) = true).
    { destruct a; cbn [perform];
        try (match goal with
             | |- isImageLoading (final (?m w)) = true =>
               assert (Pm : preserves isImageLoading m)
                 by (autounfold with app; repeat preserve_step);
               rewrite Pm; exact L
             end).
      apply (initialDataLoad_missing key P0 w K G). }
    specialize (IH (final (perform tza key a w)) Ga La).
    destruct (perform tza key a w) as [[[] | e] wa ea];
      cbn [final] in IH, La |- *; [ | exact La].
    destruct (perform_all tza key rest wa) as [o wr er]. exact IH. }
  assert (Split : forall l1 l2 w,
             final (perform_all tza key (l1 ++ l2) w)
             = match outcome (perform_all tza key l1 w) with
               | Returned _ =>
                 final (perform_all tza key l2
                          (final (perform_all tza key l1 w)))
               | Thrown _ => final (perform_all tza key l1 w)
               end).
  { induction l1 as [ | a l1 IH]; intros l2 w.
    - cbn. reflexivity.
    - cbn [app perform_all]. unfold bind.
      destruct (perform tza key a w) as [[[] | e] wa ea]; [ | reflexivity].
      specialize (IH l2 wa).
      destruct (perform_all tza key (l1 ++ l2) wa) as [o1 w1 e1].
      destruct (perform_all tza key l1 wa) as [o2 w2 e2].
      cbn [final outcome] in IH |- *. exact IH. }
  rewrite Split, handlers_never_throw.
  set (w0 := final (perform_all tza key before (load tza now))).
  assert (G0 : genAI w0 = None).
  { subst w0. rewrite (perform_all_keeps_genAI tza key K). reflexivity. }
  destruct (initialDataLoad_missing key P w0 K G0) as (L1 & G1 & _).
  cbn [perform_all perform]. unfold bind.
  destruct (initialDataLoad key P w0) as [[[] | e] w1 e1];
    cbn [final] in L1, G1 |- *; [ | exact L1].
  specialize (Inv after w1 G1 L1).
  destruct (perform_all tza key after w1) as [o wr er]. exact Inv.
Qed.

Lemma spinner_stuck_without_key_witness :
  isImageLoading
    (final (perform_all Sample.tza None
              ([ToggleSound Sample.up] ++ InitialDataLoad Sample.up
                 :: [TestReminder Sample.up; DismissPopup])
              (load Sample.tza Sample.nov29_1059)))
  = true.
Proof.
  apply (spinner_stuck_without_key Sample.tza None Sample.up
           [ToggleSound Sample.up] [TestReminder Sample.up; DismissPopup]
           Sample.nov29_1059).
  reflexivity.
Defined.


(** ** Unhandled rejections *)

Section Throws.
Variable ok : Error -> bool.

Lemma throws_only_ret {A} (a : A) : throws_only ok (ret a).
Proof. intros w e H. discriminate H. Qed.

Lemma throws_only_throw {A} e : ok e = true -> throws_only ok (@throw A e).
Proof. intros H w e' E. cbn in E. injection E as <-. exact H. Qed.

Lemma throws_only_emit ev : throws_only ok (emit ev).
Proof. intros w e H. discriminate H. Qed.

Lemma throws_only_read {A} (g : World -> A) : throws_only ok (read g).
Proof. intros w e H. discriminate H. Qed.

Lemma throws_only_update g : throws_only ok (update g).
Proof. intros w e H. discriminate H. Qed.

Lemma throws_only_bind {A B} (m : M A) (k : A -> M B) :
  throws_only ok m -> (forall a, throws_only ok (k a)) ->
  throws_only ok (bind m k).
Proof.
  intros Hm Hk w e. unfold bind. specialize (Hm w).
  destruct (m w) as [[a | e'] w1 e1]; cbn in Hm |- *.
  - specialize (Hk a w1). destruct (k a w1) as [o w2 e2]. exact (Hk e).
  - intros E. injection E as <-. exact (Hm e' eq_refl).
Qed.

Lemma throws_only_try_catch {A} (m : M A) (h : Error -> M A) :
  (forall e, throws_only ok (h e)) -> throws_only ok (try_catch m h).
Proof.
  intros Hh w e. unfold try_catch.
  destruct (m w) as [[a | e'] w1 e1]; [discriminate | ].
  specialize (Hh e' w1). destruct (h e' w1) as [o w2 e2]. exact (Hh e).
Qed.

Lemma throws_only_getGenAI key :
  key_missing key = false -> throws_only ok (getGenAI key).
Proof.
  intros present w e. unfold getGenAI. rewrite bind_read.
  destruct (genAI w) as [ai | ]; [discriminate | ].
  destruct key as [k | ]; [ | discriminate present]. cbn in present.
  destruct (truthy k); [discriminate | discriminate present].
Qed.

Lemma silent_detached_throws f (m : M unit) :
  throws_only ok m ->
  (forall e, ok e = true -> f (UnhandledRejection e) = false) ->
  silent f m -> silent f (detached m).
Proof.
  intros Ht Hf Hs w. unfold detached. specialize (Hs w).
  specialize (Ht w).
  destruct (m w) as [[a | e] w1 e1]; cbn in Ht, Hs |- *; [exact Hs | ].
  rewrite filter_app, Hs. cbn. rewrite (Hf e (Ht e eq_refl)). reflexivity.
Qed.
End Throws.

Ltac throw_step K :=
  match goal with
  | |- throws_only _ (bind _ _) => apply throws_only_bind; [ | intros ? ]
  | |- throws_only _ (try_catch _ _) =>
    apply throws_only_try_catch; intros ?
  | |- throws_only _ (ret _) => apply throws_only_ret
  | |- throws_only _ (throw _) => apply throws_only_throw; reflexivity
  | |- throws_only _ (emit _) => apply throws_only_emit
  | |- throws_only _ (read _) => apply throws_only_read
  | |- throws_only _ (update _) => apply throws_only_update
  | |- throws_only _ (getGenAI _) => apply throws_only_getGenAI; exact K
  | |- throws_only _ (match ?x with _ => _ end) => destruct x
  end.

Section WithKey.
Variables (tza : Zone) (key : option jsstring).
Hypothesis present : key_missing key = false.

(** With a key, an episode throws nothing but the refusal of the audio
    context of its playback. *)
Lemma triggerReminder_throws P manual :
  throws_only (fun e => is_refusal e && negb (context_at_playback P))
              (triggerReminder key P manual).
Proof. autounfold with app. repeat throw_step present. Qed.

Lemma image_load_throws P l :
  throws_only (fun _ => false)
              (res <- generateSafetyImage key P l ;;
               setSafetyImageUrl (imageUrl res) ;;
               setIsImageLoading false).
Proof. autounfold with app. repeat throw_step present. Qed.

Lemma perform_unhandled f a :
  (forall ev, f ev = true -> is_unhandled ev = true) ->
  f (UnhandledRejection AudioContextRefused) = false
  \/ playback_granted a = true ->
  silent f (perform tza key a).
Proof.
  intros Hf Hg.
  assert (Fu : forall e, f (UncaughtError e) = false).
  { intros e. destruct (f (UncaughtError e)) eqn:E; [ | reflexivity].
    apply Hf in E. discriminate E. }
  assert (Quiet : forall (A : Type) (m : M A),
             silent is_unhandled m -> silent f m).
  { intros A m Hm w. specialize (Hm w).
    induction (emitted (m w)) as [ | ev evs IH]; [reflexivity | ].
    cbn in Hm |- *. destruct (f ev) eqn:E.
    - apply Hf in E. rewrite E in Hm. discriminate Hm.
    - destruct (is_unhandled ev); [discriminate Hm | exact (IH Hm)]. }
  assert (Episode : forall P manual,
             f (UnhandledRejection AudioContextRefused) = false
             \/ context_at_playback P = true ->
             silent f (detached (triggerReminder key P manual))).
  { intros P manual Hp.
    apply (silent_detached_throws _ _ _ (triggerReminder_throws P manual)).
    - intros e He. apply andb_prop in He. destruct He as (Hr & Hn).
      destruct e; try discriminate Hr.
      destruct Hp as [Hp | Hp]; [exact Hp | ].
      rewrite Hp in Hn. discriminate Hn.
    - apply Quiet. autounfold with app. repeat silent_step. }
  destruct a; cbn [perform playback_granted] in Hg |- *.
  - apply Quiet. repeat silent_step.
  - unfold initialDataLoad.
    apply silent_bind; [apply Quiet; autounfold with app;
                        repeat silent_step | intros u].
    apply silent_bind; [apply Quiet; autounfold with app;
                        repeat silent_step | intros _].
    apply (silent_detached_throws _ _ _ (image_load_throws P (level u)));
      [discriminate | ].
    apply Quiet. autounfold with app. repeat silent_step.
  - unfold hourlyTimerCheck.
    apply silent_bind; [apply Quiet; autounfold with app;
                        repeat silent_step | intros now].
    apply silent_bind; [apply silent_read | intros last].
    destruct (negb _); [ | apply silent_ret].
    apply silent_bind; [apply silent_update | intros _].
    apply Episode, Hg.
  - apply silent_handler; [exact Fu | ].
    apply Quiet. autounfold with app. repeat silent_step.
  - apply silent_handler; [exact Fu | ]. unfold testReminder.
    apply silent_bind; [apply Quiet; autounfold with app;
                        repeat silent_step | intros _].
    apply Episode, Hg.
  - apply silent_handler; [exact Fu | ].
    apply Quiet. autounfold with app. repeat silent_step.
Qed.
End WithKey.

(** X8.  With an API key configured, the only promise rejection that any
    sequence of ticks, clicks and loads leaves unhandled is the refusal of
    the audio context in the playback block: no failure of the service or
    of the decoding surfaces as one.  Where the browser grants the
    playback contexts there is no unhandled rejection at all. *)
Theorem unhandled_rejections_with_key :
  forall (tza : Zone) (key : option jsstring) (acts : list Action) (w : World),
    key_missing key = false ->
    (forall e,
        In (UnhandledRejection e) (emitted (perform_all tza key acts w)) ->
        e = AudioContextRefused)
    /\ (forallb playback_granted acts = true ->
        filter is_unhandled (emitted (perform_all tza key acts w)) = []).
Proof.
  intros tza key acts w K. split.
  - assert (S : silent service_rejection (perform_all tza key acts)).
    { induction acts as [ | a rest IH]; [apply silent_ret | ].
      cbn [perform_all].
      apply silent_bind; [ | intros _; exact IH].
      apply (perform_unhandled tza key K); [ | left; reflexivity].
      intros ev E. destruct ev; try discriminate E. reflexivity. }
    intros e Hin. specialize (S w).
    destruct e; try reflexivity; exfalso;
      (assert (I : In (UnhandledRejection _)
                      (filter service_rejection
                         (emitted (perform_all tza key acts w))))
         by (apply filter_In; split; [exact Hin | reflexivity]));
      rewrite S in I; exact I.
  - revert w. induction acts as [ | a rest IH]; intros w G;
      [reflexivity | ].
    cbn [forallb] in G. apply andb_prop in G. destruct G as (Ga & Gr).
    cbn [perform_all].
    apply silent_bind;
      [ | intros _ w'; apply IH; exact Gr].
    apply (perform_unhandled tza key K); [auto | right; exact Ga].
Qed.

Lemma unhandled_rejections_with_key_witness :
  filter is_unhandled
    (emitted (perform_all Sample.tza Sample.key
                [InitialDataLoad Sample.down; TestReminder Sample.down]
                (load Sample.tza Sample.nov29_1059)))
  = [].
Proof.
  apply (unhandled_rejections_with_key Sample.tza Sample.key
           [InitialDataLoad Sample.down; TestReminder Sample.down]
           (load Sample.tza Sample.nov29_1059));
    reflexivity.
Defined.

Example refused_playback_is_unhandled :
  filter is_unhandled
    (emitted (perform_all Sample.tza Sample.key
                [TimerTick Sample.refused]
                (with_clock (Sample.nov29_1059 + checkInterval)
                   (load Sample.tza Sample.nov29_1059))))
  = [UnhandledRejection AudioContextRefused].
Proof. vm_compute. reflexivity. Qed.

(** ** The timer over many ticks and the manual trigger *)

Lemma triggerReminder_head key P manual w :
  exists evs,
    emitted (triggerReminder key P manual w)
    = Call_triggerReminder manual :: evs
    /\ filter is_episode evs = [].
Proof.
  rewrite triggerReminder_eq. apply triggerReminder_of_head.
Qed.

Lemma filter_episode_kinds evs :
  filter is_episode evs = [] ->
  filter is_auto_episode evs = [] /\ filter is_manual_episode evs = [].
Proof.
  induction evs as [ | ev evs IH]; [auto | ].
  cbn. destruct ev; try discriminate; auto.
Qed.

Lemma tick_run tza key P w :
  let h := Date.getHours tza (clock w) in
  let r := hourlyTimerCheck tza key P w in
  lastHourCheckRef (final r) = h
  /\ clock (final r) = clock w
  /\ count_if is_auto_episode (emitted r)
     = (if (h =? lastHourCheckRef w)%Z then 0%nat else 1%nat)
  /\ count_if is_manual_episode (emitted r) = 0%nat.
Proof.
  cbv zeta. unfold hourlyTimerCheck, new_Date. rewrite !bind_read.
  destruct (Z.eqb_spec (Date.getHours tza (clock w)) (lastHourCheckRef w))
    as [E | N]; cbn [negb].
  - cbn. auto.
  - rewrite bind_update.
    set (w' := with_lastHourCheckRef (Date.getHours tza (clock w)) w).
    assert (Pr : preserves lastHourCheckRef
                   (detached (triggerReminder key P false)))
      by (apply preserves_detached, triggerReminder_preserves_ref).
    assert (Pc : preserves clock (detached (triggerReminder key P false)))
      by (autounfold with app; repeat preserve_step).
    rewrite Pr, Pc. unfold count_if.
    rewrite !detached_emitted by reflexivity.
    destruct (triggerReminder_head key P false w') as (evs & -> & Hs).
    destruct (filter_episode_kinds evs Hs) as (Ha & Hm).
    cbn [filter is_auto_episode is_manual_episode]. rewrite Ha, Hm.
    repeat split.
Qed.

Lemma emitted_bind {A B} (m : M A) (k : A -> M B) w a :
  outcome (m w) = Returned a ->
  emitted (bind m k w) = emitted (m w) ++ emitted (k a (final (m w))).
Proof.
  unfold bind. destruct (m w) as [[a' | e] w1 e1]; cbn; [ | discriminate].
  intros E. injection E as ->. destruct (k a w1); reflexivity.
Qed.


Lemma initAudio_run P w :
  initAudio P w =
  if audioContext w then mkRun (Returned tt) w []
  else if context_at_click P
       then mkRun (Returned tt) (with_audioContext true w) [SetAudioContext]
       else mkRun (Thrown AudioContextRefused) w [].
Proof.
  unfold initAudio. rewrite bind_read.
  destruct (audioContext w); [reflexivity | ].
  cbn [negb]. unfold new_AudioContext.
  destruct (context_at_click P); reflexivity.
Qed.



(** The click reaches the page as an uncaught error of the handler. *)
Example refused_click_starts_nothing :
  emitted (perform Sample.tza Sample.key (TestReminder Sample.refused)
             (load Sample.tza Sample.nov29_1059))
  = [UncaughtError AudioContextRefused].
Proof. vm_compute. reflexivity. Qed.

(** ** The audio context *)

Lemma perform_context tza key a w :
  let r := perform tza key a w in
  (count_if is_new_context (emitted r)
   <= (if audioContext w then 0 else 1))%nat
  /\ (audioContext w = true \/ count_if is_new_context (emitted r) = 1%nat ->
      audioContext (final r) = true).
Proof.
  cbv zeta.
  assert (Quiet : forall m : M unit,
             silent is_new_context m -> preserves audioContext m ->
             (count_if is_new_context (emitted (m w))
              <= (if audioContext w then 0 else 1))%nat
             /\ (audioContext w = true
                 \/ count_if is_new_context (emitted (m w)) = 1%nat ->
                 audioContext (final (m w)) = true)).
  { intros m Sm Pm. unfold count_if. rewrite Sm, Pm. cbn.
    split; [destruct (audioContext w); auto | ].
    intros [H | H]; [exact H | discriminate H]. }
  assert (After : forall P (m : M unit),
             silent is_new_context m -> preserves audioContext m ->
             let r := handler (bind (initAudio P) (fun _ => m)) w in
             (count_if is_new_context (emitted r)
              <= (if audioContext w then 0 else 1))%nat
             /\ (audioContext w = true
                 \/ count_if is_new_context (emitted r) = 1%nat ->
                 audioContext (final r) = true)).
  { intros P m Sm Pm. cbv zeta. unfold handler, bind.
    rewrite initAudio_run.
    destruct (audioContext w) eqn:C; [ | destruct (context_at_click P)].
    - specialize (Sm w). specialize (Pm w).
      destruct (m w) as [[[] | e] w2 e2]; cbn in Sm, Pm |- *;
        unfold count_if; cbn; rewrite ?filter_app, Sm; cbn;
        (split; [auto | ]); intros _; congruence.
    - specialize (Sm (with_audioContext true w)).
      specialize (Pm (with_audioContext true w)).
      destruct (m (with_audioContext true w)) as [[[] | e] w2 e2];
        cbn in Sm, Pm |- *; unfold count_if; cbn;
        rewrite ?filter_app, Sm; cbn;
        (split; [auto | ]); intros _; exact Pm.
    - unfold count_if. cbn. split; [auto | ].
      intros [H | H]; discriminate H. }
  assert (Handled : forall m : M unit,
             silent is_new_context m -> preserves audioContext m ->
             silent is_new_context (handler m)
             /\ preserves audioContext (handler m)).
  { intros m Sm Pm. split.
    - apply silent_handler; [reflexivity | exact Sm].
    - apply preserves_handler. exact Pm. }
  destruct a; cbn [perform].
  - apply Quiet; [apply silent_update | apply preserves_update; reflexivity].
  - apply Quiet; autounfold with app;
      [repeat silent_step | repeat preserve_step].
  - apply Quiet; autounfold with app;
      [repeat silent_step | repeat preserve_step].
  - unfold toggleSound. apply After; autounfold with app;
      [repeat silent_step | repeat preserve_step].
  - unfold testReminder. apply After; autounfold with app;
      [repeat silent_step | repeat preserve_step].
  - apply Quiet; apply Handled; autounfold with app;
      [repeat silent_step | repeat preserve_step
       | repeat silent_step | repeat preserve_step].
Qed.

(** X11.  Over any sequence of actions [initAudio] stores an audio context
    at most once, and never when one is already stored. *)
Theorem audio_context_made_once :
  forall (tza : Zone) (key : option jsstring) (acts : list Action) (w : World),
    (count_if is_new_context (emitted (perform_all tza key acts w))
     <= (if audioContext w then 0 else 1))%nat.
Proof.
  intros tza key acts. induction acts as [ | a rest IH]; intros w.
  - cbn. destruct (audioContext w); auto.
  - cbn [perform_all].
    destruct (perform_returns tza key a w) as ([] & Ho).
    rewrite (emitted_bind _ _ _ _ Ho).
    destruct (perform_context tza key a w) as (Hc & Hk).
    specialize (IH (final (perform tza key a w))).
    unfold count_if in *. rewrite filter_app, length_app.
    destruct (audioContext w) eqn:C.
    + rewrite (Hk (or_introl eq_refl)) in IH. lia.
    + destruct (List.length (filter is_new_context
                               (emitted (perform tza key a w)))) as [ | n] eqn:L.
      * destruct (audioContext (final (perform tza key a w))); lia.
      * assert (n = 0%nat) by lia. subst n.
        rewrite (Hk (or_intror eq_refl)) in IH. lia.
Qed.

(** ** What an episode sends and shows *)

Lemma generateReminderText_nonempty key P l d h w text :
  outcome (generateReminderText key P l d h w) = Returned text ->
  text <> [].
Proof.
  unfold generateReminderText, generateContent_text, console_error,
    try_catch, bind, emit, ret, throw.
  destruct (getGenAI key w) as [[ai | e] w1 e1]; [ | discriminate].
  cbv beta iota.
  destruct (flash_text P (text_prompt l d h)) as [ | t]; cbn [outcome];
    intros E; injection E as <-.
  - discriminate.
  - apply or_else_nonempty. discriminate.
Qed.

Lemma triggerReminder_message key P manual w :
  currentMessage w <> [] ->
  currentMessage (final (triggerReminder key P manual w)) <> [].
Proof.
  intros H. rewrite triggerReminder_eq.
  pose proof (triggerReminder_of_run key P (isSoundEnabled w) manual w) as R.
  cbv zeta in R. rewrite R. clear R.
  set (u := classify (clock w) (DEADLINE w)).
  pose proof (generateReminderText_nonempty key P (level u) (diffDays u)
                (diffHours u) (with_urgency (level u) w)) as N.
  assert (Pg : preserves currentMessage
                 (generateReminderText key P (level u) (diffDays u)
                    (diffHours u)))
    by (autounfold with app; repeat preserve_step).
  specialize (Pg (with_urgency (level u) w)).
  destruct (generateReminderText key P (level u) (diffDays u) (diffHours u)
              (with_urgency (level u) w)) as [[text | e] wg eg];
    cbn [outcome final] in N, Pg |- *.
  - rewrite (speak_preserves key P currentMessage) by reflexivity.
    cbn. apply N. reflexivity.
  - rewrite Pg. exact H.
Qed.


(** X13.  An episode with a client at hand sends exactly one text request,
    for the tier and figures of the classifier, then, if the sound is on,
    exactly one speech request, whose text is the message it revealed; it
    sends nothing else. *)
Theorem episode_requests :
  forall (key : option jsstring) (P : Provider) (manual : bool) (w : World),
    genAI w <> None \/ key_missing key = false ->
    let u := classify (clock w) (DEADLINE w) in
    let r := triggerReminder key P manual w in
    filter is_request (emitted r)
    = TextRequest (text_prompt (level u) (diffDays u) (diffHours u))
      :: (if isSoundEnabled w
          then [SpeechRequest (currentMessage (final r))]
          else []).
Proof.
  intros key P manual w H. cbv zeta. rewrite triggerReminder_eq.
  pose proof (triggerReminder_of_run key P (isSoundEnabled w) manual w) as R.
  cbv zeta in R. rewrite R. clear R.
  set (u := classify (clock w) (DEADLINE w)).
  destruct (generateReminderText_available key P (level u) (diffDays u)
              (diffHours u) (with_urgency (level u) w) H) as (w' & G & Gn).
  rewrite G. cbn [outcome final emitted].
  set (text := match flash_text P (text_prompt (level u) (diffDays u)
                                     (diffHours u)) with
               | Rejects => lit "请注意：安全课程需要在11月30日前完成。"
               | Responds t =>
                 or_else (option_map trim t) (lit "请立即完成安全课程！")
               end).
  set (w2 := with_showPopup true (with_currentMessage text w')).
  rewrite (speak_preserves key P currentMessage) by reflexivity.
  change (currentMessage w2) with text.
  assert (Pre : filter is_request
                  (Call_triggerReminder manual
                   :: (if manual then []
                       else [ConsoleLog (lit "Auto-triggering reminder...")])
                   ++ [SetUrgency (level u)]) = [])
    by (destruct manual; reflexivity).
  rewrite filter_app, Pre. cbn [app].
  cbn [filter is_request]. f_equal.
  rewrite filter_app.
  assert (Txt : filter is_request
                  match flash_text P (text_prompt (level u) (diffDays u)
                                        (diffHours u)) with
                  | Rejects => [ConsoleError (lit "Error generating text:")]
                  | Responds _ => []
                  end = []).
  { destruct (flash_text P (text_prompt (level u) (diffDays u) (diffHours u)));
      reflexivity. }
  rewrite Txt. cbn [app filter is_request].
  unfold speak. destruct (isSoundEnabled w); [ | reflexivity].
  assert (Hs : genAI w2 <> None \/ key_missing key = false)
    by (left; exact Gn).
  destruct (generateSpeech_with_client key P text w2 Hs)
    as (buffer & Ho & Hr & _).
  unfold bind.
  destruct (generateSpeech key P text w2) as [[b | e] ws es];
    cbn [outcome emitted] in Ho, Hr |- *; [ | discriminate Ho].
  destruct b as [b | ]; unfold play, new_AudioContext, bind;
    [destruct (context_at_playback P) | ];
    cbn [emit ret throw emitted outcome final];
    rewrite ?filter_app, ?app_nil_r, Hr; reflexivity.
Qed.

Lemma detached_final m w : final (detached m w) = final (m w).
Proof. unfold detached. destruct (m w) as [[a | e] w1 e1]; reflexivity. Qed.

Lemma detached_In ev m w :
  In ev (emitted (m w)) -> In ev (emitted (detached m w)).
Proof.
  unfold detached. destruct (m w) as [[a | e] w1 e1]; cbn; [auto | ].
  intros H. apply in_or_app. left. exact H.
Qed.

Lemma handler_final m w : final (handler m w) = final (m w).
Proof. unfold handler. destruct (m w) as [[a | e] w1 e1]; reflexivity. Qed.

Lemma handler_emitted f m w :
  (forall e, f (UncaughtError e) = false) ->
  filter f (emitted (handler m w)) = filter f (emitted (m w)).
Proof.
  intros Hf. unfold handler.
  destruct (m w) as [[a | e] w1 e1]; cbn; [reflexivity | ].
  rewrite filter_app. cbn. rewrite Hf. apply app_nil_r.
Qed.

(** An episode writes the urgency once, from the classifier. *)
Lemma triggerReminder_urgency key P manual w :
  let t := triggerReminder key P manual w in
  urgency (final t) = level (classify (clock w) (DEADLINE w))
  /\ filter is_urgency_write (emitted t)
     = [SetUrgency (level (classify (clock w) (DEADLINE w)))].
Proof.
  cbv zeta. rewrite triggerReminder_eq.
  pose proof (triggerReminder_of_run key P (isSoundEnabled w) manual w) as R.
  cbv zeta in R. rewrite R. clear R.
  set (u := classify (clock w) (DEADLINE w)).
  assert (Pg : preserves urgency
                 (generateReminderText key P (level u) (diffDays u)
                    (diffHours u)))
    by (autounfold with app; repeat preserve_step).
  assert (Sg : silent is_urgency_write
                 (generateReminderText key P (level u) (diffDays u)
                    (diffHours u)))
    by (autounfold with app; repeat silent_step).
  specialize (Pg (with_urgency (level u) w)).
  specialize (Sg (with_urgency (level u) w)).
  assert (Pre : filter is_urgency_write
                  (Call_triggerReminder manual
                   :: (if manual then []
                       else [ConsoleLog (lit "Auto-triggering reminder...")])
                   ++ [SetUrgency (level u)]) = [SetUrgency (level u)])
    by (destruct manual; reflexivity).
  destruct (generateReminderText key P (level u) (diffDays u) (diffHours u)
              (with_urgency (level u) w)) as [[text | e] wg eg];
    cbn [outcome final emitted] in Pg, Sg |- *.
  - rewrite (speak_preserves key P urgency) by reflexivity. cbn [urgency
      with_showPopup with_currentMessage].
    split; [exact Pg | ].
    assert (Ss : silent is_urgency_write
                   (speak key P (isSoundEnabled w) text))
      by (unfold speak; autounfold with app; repeat silent_step).
    rewrite !filter_app, Pre, Sg, Ss. reflexivity.
  - split; [exact Pg | ].
    rewrite !filter_app, Pre, Sg. reflexivity.
Qed.

Lemma initialDataLoad_eq key P w :
  let l := level (classify (clock w) (DEADLINE w)) in
  initialDataLoad key P w =
  match
    (setIsImageLoading true ;;
     detached
       (res <- generateSafetyImage key P l ;;
        setSafetyImageUrl (imageUrl res) ;;
        setIsImageLoading false)) (with_urgency l w)
  with
  | mkRun o w2 e2 => mkRun o w2 (SetUrgency l :: e2)
  end.
Proof.
  cbv zeta. unfold initialDataLoad. unfold bind at 1.
  rewrite calculateUrgency_run. reflexivity.
Qed.

(** X14.  An action writes the stored urgency at most once.  The initial
    load, a timer tick in a new hour and a click on the test button that
    gets its audio context write it exactly once, and what they write and
    leave stored is the tier the classifier gives for the current clock and
    the deadline.  Every other action writes nothing and leaves the stored
    urgency as it was. *)
Theorem urgency_written_from_clock :
  forall (tza : Zone) (key : option jsstring) (a : Action) (w : World),
    let r := perform tza key a w in
    let tier := level (classify (clock w) (DEADLINE w)) in
    if writes_urgency tza a w
    then filter is_urgency_write (emitted r) = [SetUrgency tier]
         /\ urgency (final r) = tier
    else filter is_urgency_write (emitted r) = []
         /\ urgency (final r) = urgency w.
Proof.
  intros tza key a w. cbv zeta.
  assert (Keep : forall m : M unit,
             silent is_urgency_write m -> preserves urgency m ->
             filter is_urgency_write (emitted (m w)) = []
             /\ urgency (final (m w)) = urgency w)
    by (intros m Sm Pm; split; [apply Sm | apply Pm]).
  assert (Episode : forall P manual w1,
             let r := detached (triggerReminder key P manual) w1 in
             filter is_urgency_write (emitted r)
             = [SetUrgency (level (classify (clock w1) (DEADLINE w1)))]
             /\ urgency (final r)
                = level (classify (clock w1) (DEADLINE w1))).
  { intros P manual w1. cbv zeta.
    destruct (triggerReminder_urgency key P manual w1) as (Eu & Ei).
    rewrite detached_final, detached_emitted by reflexivity. auto. }
  destruct a; cbn [perform writes_urgency].
  - apply Keep; [apply silent_update | apply preserves_update; reflexivity].
  - rewrite initialDataLoad_eq. cbv zeta.
    set (l := level (classify (clock w) (DEADLINE w))).
    match goal with
    | |- context [match ?m (with_urgency l w) with _ => _ end] =>
      assert (Pm : preserves urgency m)
        by (autounfold with app; repeat preserve_step);
      assert (Sm : silent is_urgency_write m)
        by (autounfold with app; repeat silent_step);
      specialize (Pm (with_urgency l w));
      specialize (Sm (with_urgency l w));
      destruct (m (with_urgency l w)) as [o w2 e2]
    end.
    cbn [final emitted filter is_urgency_write] in Pm, Sm |- *.
    rewrite Sm. split; [reflexivity | exact Pm].
  - unfold hourlyTimerCheck, new_Date. rewrite !bind_read.
    destruct (negb _); [ | split; reflexivity].
    rewrite bind_update. exact (Episode P false _).
  - apply Keep.
    + apply silent_handler; [reflexivity | ].
      autounfold with app. repeat silent_step.
    + apply preserves_handler. autounfold with app. repeat preserve_step.
  - rewrite handler_final, handler_emitted by reflexivity.
    unfold testReminder, bind. rewrite initAudio_run.
    destruct (audioContext w); [ | destruct (context_at_click P)];
      cbn [orb].
    + destruct (Episode P true w) as (Ee & Eu).
      destruct (detached (triggerReminder key P true) w) as [o wd ed].
      cbn [emitted final app] in Ee, Eu |- *.
      split; [exact Ee | exact Eu].
    + destruct (Episode P true (with_audioContext true w)) as (Ee & Eu).
      destruct (detached (triggerReminder key P true)
                  (with_audioContext true w)) as [o wd ed].
      cbn [emitted final app filter is_urgency_write] in Ee, Eu |- *.
      split; [exact Ee | exact Eu].
    + split; reflexivity.
  - apply Keep.
    + apply silent_handler; [reflexivity | ].
      autounfold with app. repeat silent_step.
    + apply preserves_handler. autounfold with app. repeat preserve_step.
Qed.

(** ** The text that is shown *)

Lemma trimStart_head s : starts_white (trimStart s) = false.
Proof.
  induction s as [ | c r IH]; [reflexivity | ].
  cbn [trimStart]. destruct (is_white c) eqn:W; [exact IH | ].
  cbn [starts_white]. exact W.
Qed.

Lemma trimStart_suffix s : exists p, s = p ++ trimStart s.
Proof.
  induction s as [ | c r (p & IH)]; [exists []; reflexivity | ].
  cbn [trimStart]. destruct (is_white c).
  - exists (c :: p). cbn. f_equal. exact IH.
  - exists []. reflexivity.
Qed.

Lemma trimEnd_prefix s : exists q, s = trimEnd s ++ q.
Proof.
  unfold trimEnd. destruct (trimStart_suffix (rev s)) as (p & E).
  exists (rev p).
  rewrite <- rev_app_distr, <- E. symmetry. apply rev_involutive.
Qed.

Lemma trim_ends s :
  starts_white (trim s) = false /\ ends_white (trim s) = false.
Proof.
  unfold trim. split.
  - pose proof (trimStart_head s) as H.
    destruct (trimEnd_prefix (trimStart s)) as (q & E).
    destruct (trimEnd (trimStart s)) as [ | c r]; [reflexivity | ].
    rewrite E in H. exact H.
  - unfold ends_white, trimEnd. rewrite rev_involutive.
    apply trimStart_head.
Qed.

(** X15.  Whatever text [generateReminderText] returns is not empty and
    neither starts nor ends with white space. *)
Theorem reminder_text_is_trimmed :
  forall (key : option jsstring) (P : Provider) (l : UrgencyLevel)
         (d h : Z) (w : World) (text : jsstring),
    outcome (generateReminderText key P l d h w) = Returned text ->
    text <> [] /\ starts_white text = false /\ ends_white text = false.
Proof.
  intros key P l d h w text H.
  split; [exact (generateReminderText_nonempty key P l d h w text H) | ].
  revert H.
  unfold generateReminderText, generateContent_text, console_error,
    try_catch, bind, emit, ret, throw.
  destruct (getGenAI key w) as [[ai | e] w1 e1]; [ | discriminate].
  cbv beta iota.
  destruct (flash_text P (text_prompt l d h)) as [ | t]; cbn [outcome];
    intros E; injection E as <-.
  - split; vm_compute; reflexivity.
  - destruct t as [s | ]; cbn [option_map or_else];
      [ | split; vm_compute; reflexivity].
    destruct (truthy (trim s)); [apply trim_ends | ].
    split; vm_compute; reflexivity.
Qed.

Lemma reminder_text_is_trimmed_witness :
  exists text,
    outcome (generateReminderText Sample.key Sample.up CRITICAL 2 38
               (load Sample.tza Sample.nov29_1059)) = Returned text
    /\ text = lit "请尽快完成课程"
    /\ ends_white text = false.
Proof.
  eexists. split; [vm_compute; reflexivity | ].
  split; [vm_compute; reflexivity | ].
  eapply (reminder_text_is_trimmed Sample.key Sample.up CRITICAL 2 38
            (load Sample.tza Sample.nov29_1059)).
  vm_compute. reflexivity.
Defined.

(** ** The deadline in general *)

Section Deadline.
Import Date DateFacts.
Variable tza : Zone.

(** X17.  On the local calendar the deadline computed at an instant lies
    less than 366 days ahead of it and never behind it (zone settled at the
    last second of November, years 0 to 99 set aside).  Where the zone's
    offset at the deadline is not below its offset at the instant, the
    classifier's day figure is therefore at most 366. *)
Theorem deadline_within_a_year :
  forall now : Z,
    november_settled tza ->
    getFullYear tza now < 0 \/ 99 < getFullYear tza now ->
    0 <= LocalTime tza (getDeadline tza now) - LocalTime tza now
      < 366 * msPerDay
    /\ (tza now true <= tza (getDeadline tza now) true ->
        getDeadline tza now - now < 366 * msPerDay
        /\ diffDays (classify now (getDeadline tza now)) <= 366).
Proof.
  intros now N Hy.
  assert (B : 0 <= LocalTime tza (getDeadline tza now) - LocalTime tza now
              < 366 * msPerDay).
  { rewrite (getDeadline_eq tza now) by apply N. cbv zeta.
    destruct (MakeFullYear_cases (getFullYear tza now))
      as [(_ & ->) | (C & _)]; [ | lia].
    destruct (local_year_bounds tza now) as (Lo & Hi).
    pose proof (DayFromYear_succ (getFullYear tza now)) as S.
    set (y := getFullYear tza now) in *.
    pose proof (passed_iff tza _ now (N y)) as Pi. fold (nov30 tza y) in Pi.
    destruct (Z.gtb_spec now (nov30 tza y)) as [G | G].
    - unfold nov30. rewrite (proj1 (N (y + 1))).
      assert (P : localNov30 y < LocalTime tza now) by (apply Pi; lia).
      rewrite localNov30_day in P |- *.
      destruct (DaysInYear_cases y) as [E0 | E0];
        destruct (DaysInYear_cases (y + 1)) as [E1 | E1];
        rewrite ?E0, ?E1 in *; unfold msPerDay in *; lia.
    - unfold nov30. rewrite (proj1 (N y)).
      assert (P : LocalTime tza now <= localNov30 y).
      { destruct (Z.le_gt_cases (LocalTime tza now) (localNov30 y))
          as [L | L]; [exact L | ].
        apply Pi in L. lia. }
      rewrite localNov30_day in P |- *.
      destruct (DaysInYear_cases y) as [E0 | E0];
        rewrite ?E0 in *; unfold msPerDay in *; lia. }
  split; [exact B | ].
  intros Hz.
  assert (D : getDeadline tza now - now < 366 * msPerDay)
    by (unfold LocalTime in B; lia).
  split; [exact D | ].
  pose proof (classify_figures now (getDeadline tza now)) as F.
  cbv zeta in F. destruct F as (Fd & _).
  pose proof (now_le_getDeadline tza now N) as L.
  replace (Z.abs (getDeadline tza now - now))
    with (getDeadline tza now - now) in Fd by lia.
  unfold msPerDay in D. lia.
Qed.
End Deadline.

Lemma deadline_within_a_year_witness :
  diffDays (classify Sample.dec1_0000
              (getDeadline Sample.tza Sample.dec1_0000)) <= 366.
Proof.
  apply (deadline_within_a_year Sample.tza Sample.dec1_0000).
  - exact Sample_zone_settled.
  - right. vm_compute. reflexivity.
  - vm_compute. discriminate.
Defined.

(** Where the offset drops between the instant and the deadline the day
    figure can reach 367: in Almaty on 2023-12-01 00:00 the deadline is
    2024-11-30 23:59:59, five hours ahead of UTC where the instant was
    six. *)
Example almaty_367_days :
  fields Sample.almaty (getDeadline Sample.almaty Sample.dec1_2023)
  = Nov30_235959 2024
  /\ diffDays (classify Sample.dec1_2023
                 (getDeadline Sample.almaty Sample.dec1_2023)) = 367.
Proof. split; vm_compute; reflexivity. Qed.

(** ** Playback *)

(** X18.  In an episode with the sound on and a client at hand, the
    playback block runs exactly when the speech answer for the revealed
    message carries a non-empty payload that decodes.  The block asks the
    browser for a new audio context: granted, playback starts exactly once
    and the episode returns; refused, nothing plays and the episode throws
    the refusal.  Without such a payload nothing plays and the episode
    returns. *)
Theorem episode_playback :
  forall (key : option jsstring) (P : Provider) (manual : bool) (w : World),
    genAI w <> None \/ key_missing key = false ->
    isSoundEnabled w = true ->
    let r := triggerReminder key P manual w in
    let decoded :=
      match flash_tts P (currentMessage (final r)) with
      | Responds (Some data) =>
        if truthy data then decodeAudioData P data else None
      | _ => None
      end in
    filter is_playback (emitted r)
    = match decoded with
      | Some b => if context_at_playback P then [AudioStart b] else []
      | None => []
      end
    /\ outcome r
       = match decoded with
         | Some _ =>
           if context_at_playback P then Returned tt
           else Thrown AudioContextRefused
         | None => Returned tt
         end.
Proof.
  intros key P manual w H S. cbv zeta. rewrite triggerReminder_eq, S.
  pose proof (triggerReminder_of_run key P true manual w) as R.
  cbv zeta in R. rewrite R. clear R.
  set (u := classify (clock w) (DEADLINE w)).
  destruct (generateReminderText_available key P (level u) (diffDays u)
              (diffHours u) (with_urgency (level u) w) H) as (w' & G & Gn).
  rewrite G. cbn [outcome final emitted].
  set (text := match flash_text P (text_prompt (level u) (diffDays u)
                                     (diffHours u)) with
               | Rejects => lit "请注意：安全课程需要在11月30日前完成。"
               | Responds t =>
                 or_else (option_map trim t) (lit "请立即完成安全课程！")
               end).
  set (w2 := with_showPopup true (with_currentMessage text w')).
  rewrite (speak_preserves key P currentMessage) by reflexivity.
  change (currentMessage w2) with text.
  destruct (speak_run key P true text w2 Gn) as (So & Sp).
  fold (spoken P text). rewrite So. split; [ | reflexivity].
  rewrite !filter_app, Sp.
  assert (Pre : filter is_playback
                  (Call_triggerReminder manual
                   :: (if manual then []
                       else [ConsoleLog (lit "Auto-triggering reminder...")])
                   ++ [SetUrgency (level u)]) = [])
    by (destruct manual; reflexivity).
  rewrite Pre. cbn [app filter is_playback].
  destruct (flash_text P (text_prompt (level u) (diffDays u) (diffHours u)));
    reflexivity.
Qed.

(** ** Instances *)

Lemma generateSafetyImage_never_throws_witness :
  exists res,
    outcome (generateSafetyImage Sample.key Sample.up HIGH
               (load Sample.tza Sample.nov29_1059)) = Returned res.
Proof.
  destruct (generateSafetyImage_never_throws Sample.key Sample.up HIGH
              (load Sample.tza Sample.nov29_1059))
    as (res & H & _).
  - right. reflexivity.
  - exists res. exact H.
Defined.

Lemma generateSpeech_never_throws_witness :
  exists buffer,
    outcome (generateSpeech Sample.key Sample.down (lit "abc")
               (load Sample.tza Sample.nov29_1059)) = Returned buffer.
Proof.
  destruct (generateSpeech_never_throws Sample.key Sample.down (lit "abc")
              (load Sample.tza Sample.nov29_1059))
    as (buffer & H & _).
  - right. reflexivity.
  - exists buffer. exact H.
Defined.

Lemma initialDataLoad_clears_spinner_witness :
  isImageLoading
    (final (initialDataLoad Sample.key Sample.down
              (load Sample.tza Sample.nov29_1059)))
  = false.
Proof.
  apply (initialDataLoad_clears_spinner Sample.key Sample.down
           (load Sample.tza Sample.nov29_1059)).
  right. reflexivity.
Defined.

Lemma episode_requests_witness :
  List.length
    (filter is_request
       (emitted (triggerReminder Sample.key Sample.up true Sample.muted)))
  = 1%nat.
Proof.
  pose proof (episode_requests Sample.key Sample.up true Sample.muted) as E.
  cbv zeta in E. rewrite E; [reflexivity | right; reflexivity].
Defined.

Lemma episode_playback_witness :
  filter is_playback
    (emitted (triggerReminder Sample.key Sample.up true
                (load Sample.tza Sample.nov29_1059)))
  = [AudioStart {| samples := [0; 1; 0] |}]
  /\ outcome (triggerReminder Sample.key Sample.refused true
                (load Sample.tza Sample.nov29_1059))
     = Thrown AudioContextRefused.
Proof.
  pose proof (episode_playback Sample.key Sample.up true
                (load Sample.tza Sample.nov29_1059)) as U.
  pose proof (episode_playback Sample.key Sample.refused true
                (load Sample.tza Sample.nov29_1059)) as R.
  cbv zeta in U, R.
  destruct U as (U & _); [right; reflexivity | reflexivity | ].
  destruct R as (_ & R); [right; reflexivity | reflexivity | ].
  split; [rewrite U | rewrite R]; reflexivity.
Defined.
